(** * The page-rendering middleware [middleware/render-page.js]

    A shallow embedding of [buildRenderedPage], [buildMiniTocItems] and
    [renderPage], and the properties of the rendering pipeline: its early
    exits, the order in which headers and context fields are written, the
    title rule and the debugging branch. *)

From Stdlib Require Import String Ascii ZArith List Bool Lia.
From stdpp Require Import base option gmap strings.

Set Warnings "-register-all".

Local Open Scope Z_scope.

(** ** JavaScript strings

    A string is its sequence of code units; [ascii] stands for the code
    unit. *)

Module JsString.

(** [s.endsWith(t)]: [s] is [t], or its tail ends with [t]. *)
Fixpoint endsWith (s t : string) : bool :=
  String.eqb s t ||
  match s with
  | EmptyString => false
  | String _ s' => endsWith s' t
  end.

(** [s.includes(t)]: [t] starts at some position of [s]. *)
Fixpoint includes (s t : string) : bool :=
  String.prefix t s ||
  match s with
  | EmptyString => false
  | String _ s' => includes s' t
  end.

(** [a || b] on values that are a string or [undefined]: the empty
    string is falsy. *)
Definition truthy (o : option string) : option string :=
  match o with
  | Some EmptyString => None
  | Some s => Some s
  | None => None
  end.

(** The line feed of a template literal. *)
Definition nl : string := String (ascii_of_nat 10) EmptyString.

End JsString.

Import JsString.

(** ** Data *)

(** A JSON-like JavaScript value: what [res.json] is given, and what the
    opaque products of the collaborators (mini-toc items, language
    variants) are. *)
Inductive Json : Type :=
| JUndefined
| JNull
| JBool (b : bool)
| JNum (n : Z)
| JStr (s : string)
| JArr (items : list Json)
| JObj (props : list (string * Json)).

(** [context.page]: the fields [renderPage] reads and writes. *)
Record Page : Type := mkPage {
  titlePlainText : string;
  effectiveDate : option string;
  showMiniToc : bool;
  miniTocMaxHeadingLevel : Z;
  languageVariants : option Json;
  fullTitle : option string
}.

(** [context.graphql]: the [html] of the three prerendered fragments of
    the current version. *)
Record Graphql : Type := mkGraphql {
  prerenderedObjectsForCurrentVersion : string;
  prerenderedInputObjectsForCurrentVersion : string;
  prerenderedMutationsForCurrentVersion : string
}.

(** [req.context]. [github_docs] is [context.site.data.ui.header.github_docs]. *)
Record RenderContext : Type := mkContext {
  page : option Page;
  redirectNotFound : option string;
  currentVersion : string;
  graphql : Graphql;
  github_docs : string;
  renderedPage : option string;
  miniTocItems : option Json
}.

(** An entry of [allVersions]. *)
Record VersionCatalogEntry : Type := mkVersion {
  versionTitle : string
}.

(** The names under which an ordinary object answers without owning
    them: the properties of [Object.prototype]. *)
Definition objectPrototypeKeys : list string :=
  ["constructor"; "__defineGetter__"; "__defineSetter__"; "hasOwnProperty";
   "__lookupGetter__"; "__lookupSetter__"; "isPrototypeOf"; "propertyIsEnumerable";
   "toString"; "valueOf"; "__proto__"; "toLocaleString"].

Definition inheritedKey (k : string) : bool :=
  existsb (String.eqb k) objectPrototypeKeys.

(** What [allVersions[v]] reads: an entry the catalog owns, a property it
    inherits (a function or the prototype: truthy, with no
    [versionTitle]), or [undefined]. *)
Inductive VersionLookup : Type :=
| OwnEntry (entry : VersionCatalogEntry)
| InheritedProperty
| NoProperty.

(** The value read is truthy. *)
Definition isProperty (found : VersionLookup) : bool :=
  match found with
  | NoProperty => false
  | _ => true
  end.

(** The request: the fields read by the middleware. [query] is
    [req.query], a map from parameter names to their string values. *)
Record Request : Type := mkRequest {
  method : string;
  path : string;
  pagePath : option string;
  query : gmap string string
}.

(** Modelled from the spec: [cacheControlFactory] lives in
    [middleware/cache-control.js], which is not part of the sources at
    hand.  A cache policy maps a response to a cache-control directive;
    the factory applied to a max-age of zero gives the no-cache directive. *)
Inductive CacheDirective : Type :=
| NoCache
| MaxAge (seconds : Z).

Inductive HeaderValue : Type :=
| CacheControlValue (d : CacheDirective)
| TextValue (s : string).

(** What has been written as the body of the response. *)
Inductive Body : Type :=
| SentText (s : string)
| SentJson (j : Json).

(** The response handle [res]. *)
Record Response : Type := mkResponse {
  headers : gmap string HeaderValue;
  statusCode : Z;
  body : option Body
}.

(** The calls made on the collaborators that leave a mark outside the
    request: the console, the renderer behind its statsd timer, the
    mini-toc extractor and the two handlers of the next application. *)
Inductive Event : Type :=
| ConsoleError (msg : string)
| Render404
| PageRenderTimed (tags : list string)
| GetMiniTocItems (html : option string) (maxLevel : Z) (idPrefix : string)
| NextHandleRequest.

(** The terminal action of one invocation. *)
Inductive TerminalAction : Type :=
| RespondNotFound
| RespondEmpty
| RespondJson (payload : Json)
| Delegate.

Inductive Failure : Type :=
| TypeError
| UpstreamFailure (msg : string).

Inductive Result (A : Type) : Type :=
| Returned (a : A)
| Thrown (e : Failure).

Arguments Returned {A} a.
Arguments Thrown {A} e.

(** What one invocation can change: the context (with its page), the
    response, the trace of collaborator calls, and how many times the
    connection monitor has been asked. *)
Record World : Type := mkWorld {
  ctx : RenderContext;
  res : Response;
  trace : list Event;
  polls : nat
}.

(** ** The state and exception monad of the middleware *)

Definition M (A : Type) : Type := World -> Result A * World.

Definition ret {A} (a : A) : M A := fun w => (Returned a, w).

Definition bind {A B} (m : M A) (k : A -> M B) : M B :=
  fun w =>
    match m w with
    | (Returned a, w') => k a w'
    | (Thrown e, w') => (Thrown e, w')
    end.

Definition throw {A} (e : Failure) : M A := fun w => (Thrown e, w).

Definition lift {A} (r : Result A) : M A := fun w => (r, w).

Declare Scope js_scope.
Delimit Scope js_scope with js.
Notation "'let*' x ':=' m 'in' k" := (bind m (fun x => k))
  (at level 10, x name, m at level 100, k at level 200) : js_scope.
Notation "m '>>' k" := (bind m (fun _ => k))
  (at level 65, k at level 200, right associativity) : js_scope.
Local Open Scope js_scope.

Definition getContext : M RenderContext := fun w => (Returned (ctx w), w).

Definition modifyContext (f : RenderContext -> RenderContext) : M unit :=
  fun w => (Returned tt, mkWorld (f (ctx w)) (res w) (trace w) (polls w)).

Definition modifyResponse (f : Response -> Response) : M unit :=
  fun w => (Returned tt, mkWorld (ctx w) (f (res w)) (trace w) (polls w)).

Definition emit (e : Event) : M unit :=
  fun w => (Returned tt, mkWorld (ctx w) (res w) (trace w ++ [e]) (polls w)).

(** Reading a property of [page]; a [TypeError] when [page] is not an object. *)
Definition getPage : M Page :=
  let* context := getContext in
  match page context with
  | Some p => ret p
  | None => throw TypeError
  end.

Definition withPage (f : Page -> Page) (c : RenderContext) : RenderContext :=
  mkContext (option_map f (page c)) (redirectNotFound c) (currentVersion c)
            (graphql c) (github_docs c) (renderedPage c) (miniTocItems c).

(** Writing a property of [page]: the object is the one [context.page] holds. *)
Definition modifyPage (f : Page -> Page) : M unit :=
  getPage >> modifyContext (withPage f).

Definition set_languageVariants (v : Json) (p : Page) : Page :=
  mkPage (titlePlainText p) (effectiveDate p) (showMiniToc p)
         (miniTocMaxHeadingLevel p) (Some v) (fullTitle p).

Definition set_fullTitle (t : string) (p : Page) : Page :=
  mkPage (titlePlainText p) (effectiveDate p) (showMiniToc p)
         (miniTocMaxHeadingLevel p) (languageVariants p) (Some t).

(** [page.fullTitle += t]; an unset property reads as [undefined]. *)
Definition append_fullTitle (t : string) (p : Page) : Page :=
  set_fullTitle (default "undefined" (fullTitle p) +:+ t) p.

Definition set_renderedPage (html : string) (c : RenderContext) : RenderContext :=
  mkContext (page c) (redirectNotFound c) (currentVersion c)
            (graphql c) (github_docs c) (Some html) (miniTocItems c).

Definition set_miniTocItems (items : option Json) (c : RenderContext) : RenderContext :=
  mkContext (page c) (redirectNotFound c) (currentVersion c)
            (graphql c) (github_docs c) (renderedPage c) items.

(** *** The response handle *)

Definition setHeader (name : string) (v : HeaderValue) (r : Response) : Response :=
  mkResponse (<[name := v]> (headers r)) (statusCode r) (body r).

Definition status (code : Z) (r : Response) : Response :=
  mkResponse (headers r) code (body r).

Definition send (b : Body) (r : Response) : Response :=
  mkResponse (headers r) (statusCode r) (Some b).

(** Modelled from the spec: [cacheControlFactory(maxAge)] of
    [middleware/cache-control.js] (not part of the sources at hand) gives
    the function that sets the [Cache-Control] directive of a response;
    a max-age of zero is the no-cache directive. *)
Definition cacheControlFactory (maxAge : Z) (r : Response) : Response :=
  setHeader "Cache-Control"
    (CacheControlValue (if maxAge =? 0 then NoCache else MaxAge maxAge)) r.

Definition noCacheControl : Response -> Response := cacheControlFactory 0.

Definition htmlCacheControl : Response -> Response := cacheControlFactory 0.

(** ** The collaborators

    The modules the middleware imports, and the two JavaScript built-ins
    that look at the context object as a whole. *)
Class Collaborators : Type := {
  (** [process.env.NODE_ENV] *)
  NODE_ENV : option string;
  (** the entries that [allVersions] of [lib/all-versions.js] owns *)
  allVersions : gmap string VersionCatalogEntry;
  (** [patterns.homepagePath.test] *)
  homepagePath_test : string -> bool;
  (** [Page.getLanguageVariants] *)
  getLanguageVariants : string -> Json;
  (** [isConnectionDropped(req, res)]: the answer at the n-th consultation
      (from 0) of the monitor during this invocation *)
  isConnectionDropped : nat -> bool;
  (** [page.render(context)] *)
  render : RenderContext -> Result string;
  (** [getMiniTocItems(html, maxHeadingLevel, headingScope)] *)
  getMiniTocItems : option string -> Z -> string -> Result Json;
  (** [new Date(d).toUTCString()] *)
  toUTCString : string -> string;
  (** [Object.keys(context)] *)
  Object_keys : RenderContext -> list string;
  (** [get(context, path)] of lodash *)
  get : RenderContext -> string -> Json
}.

Section Middleware.

Context `{Collaborators}.

(** [process.env.NODE_ENV !== mode] *)
Definition NODE_ENV_is_not (mode : string) : bool :=
  match NODE_ENV with
  | Some m => negb (String.eqb m mode)
  | None => true
  end.

(** [req.pagePath || req.path] *)
Definition logicalPath (req : Request) : string :=
  match truthy (pagePath req) with
  | Some p => p
  | None => path req
  end.

(** [isConnectionDropped(req, res)] *)
Definition consultConnectionMonitor : M bool :=
  fun w => (Returned (isConnectionDropped (polls w)),
            mkWorld (ctx w) (res w) (trace w) (S (polls w))).

(** [statsd.asyncTimer(page.render, 'middleware.render_page', tags)] *)
Definition pageRenderTimed (tags : list string) (context : RenderContext) : M string :=
  emit (PageRenderTimed tags) >> lift (render context).

Definition buildRenderedPage (req : Request) : M string :=
  let* context := getContext in
  let* _page := getPage in
  let path := logicalPath req in
  let* renderedPage := pageRenderTimed ["path:" +:+ path] context in
  if endsWith path "graphql/reference/objects" then
    ret (renderedPage +:+ prerenderedObjectsForCurrentVersion (graphql context))
  else if endsWith path "graphql/reference/input-objects" then
    ret (renderedPage +:+ prerenderedInputObjectsForCurrentVersion (graphql context))
  else if endsWith path "graphql/reference/mutations" then
    ret (renderedPage +:+ prerenderedMutationsForCurrentVersion (graphql context))
  else
    ret renderedPage.

Definition buildMiniTocItems (req : Request) : M (option Json) :=
  let* context := getContext in
  let* page := getPage in
  if negb (showMiniToc page) then
    ret None
  else
    emit (GetMiniTocItems (renderedPage context) (miniTocMaxHeadingLevel page) "") >>
    let* items := lift (getMiniTocItems (renderedPage context) (miniTocMaxHeadingLevel page) "") in
    ret (Some items).

(** The text written to the console on the missing-page path. *)
Definition redirectNotFoundMessage (target : string) : string :=
  nl +:+ "Tried to redirect to " +:+ target +:+ ", but that page was not found." +:+ nl.

(** The message of the shallow listing. *)
Definition advisoryMessage : string :=
  "The full context object is too big to display! Try one of the individual keys below, e.g. ?json=page. You can also access nested props like ?json=site.data.reusables".

(** [{ message, keys: Object.keys(context) }] *)
Definition shallowListing (context : RenderContext) : Json :=
  JObj [("message", JStr advisoryMessage);
        ("keys", JArr (map JStr (Object_keys context)))].

(** [res.json(payload)] *)
Definition json (payload : Json) : M (option TerminalAction) :=
  modifyResponse (send (SentJson payload)) >>
  ret (Some (RespondJson payload)).

(** [allVersions[v]].  The catalog is an ordinary object keyed by
    version: [allVersions] holds the entries it owns, and a name it does
    not own may still be one it inherits. *)
Definition lookupVersion (v : string) : VersionLookup :=
  match allVersions !! v with
  | Some entry => OwnEntry entry
  | None => if inheritedKey v then InheritedProperty else NoProperty
  end.

(** Lines 102 to 123: the string for the title tag. *)
Definition composeFullTitle (req : Request) : M unit :=
  let path := logicalPath req in
  let* page := getPage in
  modifyPage (set_fullTitle (titlePlainText page)) >>
  if negb (homepagePath_test path) then
    let* context := getContext in
    if String.eqb (currentVersion context) "free-pro-team@latest"
       || negb (isProperty (lookupVersion (currentVersion context)))
    then
      modifyPage (append_fullTitle (" - " +:+ github_docs context))
    else
      (* const { versionTitle } = allVersions[req.context.currentVersion] *)
      match lookupVersion (currentVersion context) with
      | OwnEntry entry =>
          modifyPage (append_fullTitle " - ") >>
          (* Some plans don't have the word "GitHub" in them. *)
          (if negb (includes (versionTitle entry) "GitHub") then
             modifyPage (append_fullTitle "GitHub ")
           else ret tt) >>
          modifyPage (append_fullTitle (versionTitle entry +:+ " Docs"))
      | InheritedProperty =>
          (* [versionTitle] is undefined: line 114 runs, and
             [versionTitle.includes] of line 118 raises *)
          modifyPage (append_fullTitle " - ") >>
          throw TypeError
      | NoProperty => throw TypeError
      end
  else ret tt.

(** Lines 125 to 143: the debugging answer, or the hand-over to the
    next application. *)
Definition respond (req : Request) : M (option TerminalAction) :=
  let isRequestingJsonForDebugging :=
    bool_decide (is_Some (query req !! "json")) && NODE_ENV_is_not "production" in
  if isRequestingJsonForDebugging then
    match query req !! "json" with
    | Some q =>
        let* context := getContext in
        if Nat.ltb 1 (String.length q) then
          (* deep reference: ?json=page.permalinks *)
          json (get context q)
        else
          (* dump all the keys: ?json *)
          json (shallowListing context)
    | None => throw TypeError
    end
  else
    emit NextHandleRequest >>
    ret (Some Delegate).

Definition renderPage (req : Request) : M (option TerminalAction) :=
  let* context := getContext in
  let path := logicalPath req in
  match page context with
  | None =>
      (* render a 404 page *)
      modifyResponse noCacheControl >>
      (match (if NODE_ENV_is_not "test" then truthy (redirectNotFound context)
              else None) with
       | Some target => emit (ConsoleError (redirectNotFoundMessage target))
       | None => ret tt
       end) >>
      emit Render404 >>
      ret (Some RespondNotFound)
  | Some _ =>
      if String.eqb (method req) "HEAD" then
        modifyResponse noCacheControl >>
        modifyResponse (status 200) >>
        modifyResponse (send (SentText "")) >>
        ret (Some RespondEmpty)
      else
        modifyResponse htmlCacheControl >>
        let* page := getPage in
        (match truthy (effectiveDate page) with
         | Some d =>
             modifyResponse (setHeader "Last-Modified" (TextValue (toUTCString d)))
         | None => ret tt
         end) >>
        modifyPage (set_languageVariants (getLanguageVariants path)) >>
        let* dropped := consultConnectionMonitor in
        if dropped then ret None else
        let* html := buildRenderedPage req in
        modifyContext (set_renderedPage html) >>
        let* items := buildMiniTocItems req in
        modifyContext (set_miniTocItems items) >>
        let* dropped := consultConnectionMonitor in
        if dropped then ret None else
        composeFullTitle req >>
        respond req
  end.

(** *** Vocabulary of the properties *)

(** What lines 83 to 88 do to the response of a page [p]. *)
Definition lastModified (p : Page) (r : Response) : Response :=
  match truthy (effectiveDate p) with
  | Some d => setHeader "Last-Modified" (TextValue (toUTCString d)) r
  | None => r
  end.

(** What line 91 does to the context. *)
Definition withLanguageVariants (req : Request) (c : RenderContext) : RenderContext :=
  withPage (set_languageVariants (getLanguageVariants (logicalPath req))) c.

(** The collaborators do not fail in the run of [req] from [w]: the
    renderer answers on the context it is given, and the mini-toc
    extractor answers for the page, when the page asks for a mini-toc. *)
Definition UpstreamAnswers (req : Request) (w : World) : Prop :=
  (exists html, render (withLanguageVariants req (ctx w)) = Returned html) /\
  (forall p html,
     page (ctx w) = Some p -> showMiniToc p = true ->
     exists items,
       getMiniTocItems (Some html) (miniTocMaxHeadingLevel p) "" = Returned items).

(** Lines 102 to 123 fail: off the homepage, the current version is not
    free-pro-team@latest and names a property that the catalog inherits
    and does not own. *)
Definition titleThrows (req : Request) (c : RenderContext) : bool :=
  negb (homepagePath_test (logicalPath req)) &&
  negb (String.eqb (currentVersion c) "free-pro-team@latest") &&
  match lookupVersion (currentVersion c) with
  | InheritedProperty => true
  | _ => false
  end.

(** The version title with the brand word in front when it lacks it. *)
Definition brandedTitle (title : string) : string :=
  if includes title "GitHub" then title else "GitHub " +:+ title.

(** The title lines 102 to 123 leave in [page.fullTitle] when they do
    not fail, for a page [p] of a context [c]. *)
Definition composedTitle (req : Request) (c : RenderContext) (p : Page) : string :=
  if homepagePath_test (logicalPath req) then titlePlainText p
  else if String.eqb (currentVersion c) "free-pro-team@latest" then
    titlePlainText p +:+ " - " +:+ github_docs c
  else
    match allVersions !! currentVersion c with
    | None => titlePlainText p +:+ " - " +:+ github_docs c
    | Some entry =>
        titlePlainText p +:+ " - " +:+ brandedTitle (versionTitle entry) +:+ " Docs"
    end.

(** What lines 27 to 42 make of the output [base] of the renderer. *)
Definition withFragment (path : string) (g : Graphql) (base : string) : string :=
  if endsWith path "graphql/reference/objects" then
    base +:+ prerenderedObjectsForCurrentVersion g
  else if endsWith path "graphql/reference/input-objects" then
    base +:+ prerenderedInputObjectsForCurrentVersion g
  else if endsWith path "graphql/reference/mutations" then
    base +:+ prerenderedMutationsForCurrentVersion g
  else base.

(** What lines 50 to 54 give for a page [p] and the rendered page [html]
    of the context, and the call they make. *)
Definition miniTocOutcome (p : Page) (html : option string) : Result (option Json) :=
  if showMiniToc p then
    match getMiniTocItems html (miniTocMaxHeadingLevel p) "" with
    | Returned items => Returned (Some items)
    | Thrown e => Thrown e
    end
  else Returned None.

Definition miniTocCall (p : Page) (html : option string) : list Event :=
  if showMiniToc p then [GetMiniTocItems html (miniTocMaxHeadingLevel p) ""] else [].

End Middleware.

(** The part of a page that the middleware reads and never writes. *)
Definition pageInputs (p : Page) : string * option string * bool * Z :=
  (titlePlainText p, effectiveDate p, showMiniToc p, miniTocMaxHeadingLevel p).

(** The part of the context that the middleware reads and never writes. *)
Definition contextInputs (c : RenderContext)
  : option (string * option string * bool * Z) * option string * string * Graphql * string :=
  (option_map pageInputs (page c), redirectNotFound c, currentVersion c, graphql c,
   github_docs c).

(** The events that are rendering or mini-toc work. *)
Definition isRenderingWork (e : Event) : bool :=
  match e with
  | PageRenderTimed _ | GetMiniTocItems _ _ _ => true
  | _ => false
  end.

(** The events by which a terminal handler of the next application is called. *)
Definition isHandOver (e : Event) : bool :=
  match e with
  | Render404 | NextHandleRequest => true
  | _ => false
  end.

(** ** A sample deployment

    Concrete collaborators and requests, on which the middleware can be
    run. *)

Module Sample.

Definition article : Page :=
  mkPage "Foo" (Some "2022-03-01") true 2 None None.

Definition fragments : Graphql :=
  mkGraphql "<div>objects</div>" "<div>input objects</div>" "<div>mutations</div>".

Definition context : RenderContext :=
  mkContext (Some article) None "enterprise-server@3.5" fragments "GitHub Docs" None None.

(** The context of a request whose redirect target does not exist. *)
Definition lostContext : RenderContext :=
  mkContext None (Some "/en/missing") "free-pro-team@latest" fragments "GitHub Docs" None None.

Definition versions : gmap string VersionCatalogEntry :=
  <["free-pro-team@latest" := mkVersion "Free, Pro, & Team"]>
    (<["enterprise-server@3.5" := mkVersion "Enterprise Server 3.5"]> ∅).

(** The lookups of [get] that the sample knows. *)
Definition knownPaths (c : RenderContext) (q : string) : Json :=
  if String.eqb q "page" then
    match page c with
    | Some p => JObj [("titlePlainText", JStr (titlePlainText p))]
    | None => JUndefined
    end
  else if String.eqb q "page.titlePlainText" then
    match page c with
    | Some p => JStr (titlePlainText p)
    | None => JUndefined
    end
  else JUndefined.

Definition collaborators (env : option string) (dropped : nat -> bool) : Collaborators :=
  {| NODE_ENV := env;
     allVersions := versions;
     homepagePath_test := fun p => String.eqb p "/en";
     getLanguageVariants := fun p => JArr [JObj [("code", JStr "ja"); ("href", JStr ("/ja" +:+ p))]];
     isConnectionDropped := dropped;
     render := fun c => Returned "<h2>Foo</h2>";
     getMiniTocItems := fun h l s => Returned (JArr [JStr "Foo"]);
     toUTCString := fun d => "Tue, 01 Mar 2022 00:00:00 GMT";
     Object_keys := fun c => ["page"; "currentVersion"; "graphql"; "site"; "renderedPage"; "miniTocItems"];
     get := knownPaths |}.

Definition alive : nat -> bool := fun _ => false.
Definition droppedAt (n : nat) : nat -> bool := fun k => Nat.eqb k n.

Definition blank : Response := mkResponse ∅ 200 None.

Definition world (c : RenderContext) : World := mkWorld c blank [] 0.

Definition request (m p : string) (q : gmap string string) : Request :=
  mkRequest m p None q.

End Sample.

(** ** More sample data: other versions, failing collaborators *)

Module Cases.

(** An article of the default version. *)
Definition freeContext : RenderContext :=
  mkContext (Some Sample.article) None "free-pro-team@latest" Sample.fragments
            "GitHub Docs" None None.

(** An article of a version the catalog does not list. *)
Definition unlistedContext : RenderContext :=
  mkContext (Some Sample.article) None "ghost@1" Sample.fragments "GitHub Docs" None None.

(** The sample collaborators, with a renderer and a mini-toc extractor
    that give the answers [r] and [m]. *)
Definition collaborators (r : Result string) (m : Result Json) : Collaborators :=
  {| NODE_ENV := Some "development";
     allVersions := Sample.versions;
     homepagePath_test := fun p => String.eqb p "/en";
     getLanguageVariants := fun p => JArr [];
     isConnectionDropped := Sample.alive;
     render := fun c => r;
     getMiniTocItems := fun h l s => m;
     toUTCString := fun d => "Tue, 01 Mar 2022 00:00:00 GMT";
     Object_keys := fun c => ["page"];
     get := Sample.knownPaths |}.

(** An article whose current version is a name that every object
    inherits. *)
Definition inheritedContext : RenderContext :=
  mkContext (Some Sample.article) None "constructor" Sample.fragments "GitHub Docs"
            None None.

Definition renderFailed : Failure := UpstreamFailure "render failed".
Definition miniTocFailed : Failure := UpstreamFailure "mini-toc failed".

End Cases.

(** ** Running the monad *)

Ltac run :=
  repeat (progress (unfold bind, ret, throw, lift, getPage, modifyPage, getContext,
                      modifyContext, modifyResponse, emit; cbn [fst snd ctx res trace polls])).

(** The same on a world given by its fields, where the record updates
    compute too. *)
Ltac crunch :=
  cbv beta iota zeta delta
    [bind ret throw lift getPage modifyPage getContext modifyContext modifyResponse emit
     withPage set_languageVariants set_fullTitle append_fullTitle set_renderedPage
     set_miniTocItems option_map default from_option id fst snd negb orb andb
     ctx res trace polls
     page redirectNotFound currentVersion graphql github_docs renderedPage miniTocItems
     titlePlainText effectiveDate showMiniToc miniTocMaxHeadingLevel languageVariants
     fullTitle].

Section Properties.

Context `{Collaborators}.

(** *** String facts *)

Lemma endsWith_refl s : endsWith s s = true.
Proof. destruct s; cbn -[String.eqb]; rewrite String.eqb_refl; reflexivity. Qed.

Lemma endsWith_append s t : endsWith (s +:+ t) t = true.
Proof.
  induction s as [|c s IH].
  - apply endsWith_refl.
  - change (String c s +:+ t) with (String c (s +:+ t)).
    cbn -[String.eqb String.append]. rewrite IH. apply orb_true_r.
Qed.

(** Two suffixes of one string are comparable. *)
Lemma endsWith_chain s a b :
  endsWith s a = true -> endsWith s b = true ->
  endsWith a b = true \/ endsWith b a = true.
Proof.
  induction s as [|c s IH]; cbn -[String.eqb]; intros Ha Hb.
  - rewrite orb_false_r in Ha, Hb.
    apply String.eqb_eq in Ha, Hb. subst. left. reflexivity.
  - apply orb_true_iff in Ha, Hb.
    destruct Ha as [Ha|Ha]; [apply String.eqb_eq in Ha; subst a|].
    { left. cbn -[String.eqb]. exact (proj2 (orb_true_iff _ _) Hb). }
    destruct Hb as [Hb|Hb]; [apply String.eqb_eq in Hb; subst b|].
    { right. cbn -[String.eqb]. rewrite Ha. apply orb_true_r. }
    auto.
Qed.

Lemma append_assoc (s t u : string) : (s +:+ t) +:+ u = s +:+ (t +:+ u).
Proof.
  induction s as [|c s IH]; [reflexivity|].
  change (String c ((s +:+ t) +:+ u) = String c (s +:+ (t +:+ u))).
  rewrite IH. reflexivity.
Qed.

(** *** The early exits *)

Lemma renderPage_missing req w :
  page (ctx w) = None ->
  renderPage req w =
    (Returned (Some RespondNotFound),
     mkWorld (ctx w) (noCacheControl (res w))
       (trace w ++
        match (if NODE_ENV_is_not "test" then truthy (redirectNotFound (ctx w)) else None) with
        | Some target => [ConsoleError (redirectNotFoundMessage target); Render404]
        | None => [Render404]
        end)
       (polls w)).
Proof.
  intros Hpage. unfold renderPage. run. rewrite Hpage.
  destruct (if NODE_ENV_is_not "test" then _ else _); run;
    rewrite <- ?app_assoc; reflexivity.
Qed.

Lemma renderPage_HEAD req w p :
  page (ctx w) = Some p ->
  method req = "HEAD" ->
  renderPage req w =
    (Returned (Some RespondEmpty),
     mkWorld (ctx w) (send (SentText "") (status 200 (noCacheControl (res w))))
       (trace w) (polls w)).
Proof.
  intros Hpage Hm. unfold renderPage. run. rewrite Hpage, Hm. reflexivity.
Qed.

(** The world at the first consultation of the connection monitor. *)
Lemma renderPage_first_checkpoint req w p :
  page (ctx w) = Some p ->
  String.eqb (method req) "HEAD" = false ->
  renderPage req w =
    (let* dropped := consultConnectionMonitor in
     if dropped then ret None else
     let* html := buildRenderedPage req in
     modifyContext (set_renderedPage html) >>
     let* items := buildMiniTocItems req in
     modifyContext (set_miniTocItems items) >>
     let* dropped := consultConnectionMonitor in
     if dropped then ret None else
     composeFullTitle req >>
     respond req)
    (mkWorld (withLanguageVariants req (ctx w)) (lastModified p (htmlCacheControl (res w)))
       (trace w) (polls w)).
Proof.
  intros Hpage Hm. unfold renderPage at 1. run. rewrite Hpage, Hm. run.
  rewrite Hpage. unfold lastModified, withLanguageVariants.
  destruct (truthy (effectiveDate p)); run; rewrite Hpage; reflexivity.
Qed.

(** *** The steps between the two checkpoints *)

Lemma buildRenderedPage_run req w p base :
  page (ctx w) = Some p ->
  render (ctx w) = Returned base ->
  buildRenderedPage req w =
    (Returned
       (if endsWith (logicalPath req) "graphql/reference/objects" then
          base +:+ prerenderedObjectsForCurrentVersion (graphql (ctx w))
        else if endsWith (logicalPath req) "graphql/reference/input-objects" then
          base +:+ prerenderedInputObjectsForCurrentVersion (graphql (ctx w))
        else if endsWith (logicalPath req) "graphql/reference/mutations" then
          base +:+ prerenderedMutationsForCurrentVersion (graphql (ctx w))
        else base),
     mkWorld (ctx w) (res w)
       (trace w ++ [PageRenderTimed ["path:" +:+ logicalPath req]]) (polls w)).
Proof.
  intros Hpage Hrender. unfold buildRenderedPage, pageRenderTimed. run.
  rewrite Hpage. run. rewrite Hrender.
  repeat (destruct (endsWith _ _); try reflexivity).
Qed.

(** The rendering step touches nothing but the trace, where it leaves
    the call of the timed renderer. *)
Lemma buildRenderedPage_frame req w p :
  page (ctx w) = Some p ->
  exists r,
    buildRenderedPage req w =
      (r, mkWorld (ctx w) (res w)
            (trace w ++ [PageRenderTimed ["path:" +:+ logicalPath req]]) (polls w)) /\
    (forall html, render (ctx w) = Returned html -> exists html', r = Returned html').
Proof.
  intros Hpage. destruct (render (ctx w)) as [base|e] eqn:Hrender.
  - erewrite buildRenderedPage_run by eassumption.
    eexists. split; [reflexivity|]. intros _ _. eexists. reflexivity.
  - exists (Thrown e). split; [|intros ? ?; discriminate].
    unfold buildRenderedPage, pageRenderTimed. run.
    rewrite Hpage. run. rewrite Hrender. reflexivity.
Qed.

Lemma buildMiniTocItems_frame req w p :
  page (ctx w) = Some p ->
  exists r evs,
    buildMiniTocItems req w = (r, mkWorld (ctx w) (res w) (trace w ++ evs) (polls w)) /\
    Forall (fun e => isHandOver e = false) evs /\
    ((showMiniToc p = true ->
      exists items,
        getMiniTocItems (renderedPage (ctx w)) (miniTocMaxHeadingLevel p) ""
        = Returned items) ->
     exists items, r = Returned items).
Proof.
  intros Hpage. unfold buildMiniTocItems. run. rewrite Hpage. run.
  destruct (showMiniToc p) eqn:Hshow; cbn [negb].
  - run.
    destruct (getMiniTocItems (renderedPage (ctx w)) (miniTocMaxHeadingLevel p) "")
      as [items|e] eqn:Hitems.
    + eexists _, [_]. split; [reflexivity|].
      split; [repeat constructor|]. intros _. eexists. reflexivity.
    + eexists _, [_]. split; [reflexivity|].
      split; [repeat constructor|]. intros Hup.
      destruct (Hup eq_refl) as [items Hi]. congruence.
  - exists (Returned None), []. rewrite app_nil_r. destruct w.
    split; [reflexivity|]. split; [constructor|]. intros _. eexists. reflexivity.
Qed.

Lemma composeFullTitle_run req w p :
  page (ctx w) = Some p ->
  titleThrows req (ctx w) = false ->
  composeFullTitle req w =
    (Returned tt,
     mkWorld (withPage (set_fullTitle (composedTitle req (ctx w) p)) (ctx w))
       (res w) (trace w) (polls w)).
Proof.
  destruct w as [[pg rnf cv g gd rp mt] r t n]. cbn [ctx page currentVersion]. intros ->.
  destruct p as [tp ed smt lvl lv ft].
  unfold composeFullTitle, composedTitle, brandedTitle, titleThrows, lookupVersion.
  cbn [currentVersion].
  destruct (homepagePath_test (logicalPath req)); crunch; [reflexivity|].
  destruct (String.eqb cv "free-pro-team@latest"); crunch;
    [intros _; rewrite ?append_assoc; reflexivity|].
  destruct (allVersions !! cv) as [entry|] eqn:Hentry.
  - intros _. crunch. cbn [isProperty]. crunch.
    destruct (includes (versionTitle entry) "GitHub"); crunch;
      rewrite ?append_assoc; reflexivity.
  - destruct (inheritedKey cv); [discriminate|]. intros _. cbn [isProperty]. crunch.
    rewrite ?append_assoc; reflexivity.
Qed.

(** The title step on a version name that the catalog inherits: the
    separator is appended, then the step fails. *)
Lemma composeFullTitle_throws req w p :
  page (ctx w) = Some p ->
  titleThrows req (ctx w) = true ->
  composeFullTitle req w =
    (Thrown TypeError,
     mkWorld (withPage (set_fullTitle (titlePlainText p +:+ " - ")) (ctx w))
       (res w) (trace w) (polls w)).
Proof.
  destruct w as [[pg rnf cv g gd rp mt] r t n]. cbn [ctx page currentVersion]. intros ->.
  destruct p as [tp ed smt lvl lv ft].
  unfold composeFullTitle, titleThrows, lookupVersion. cbn [currentVersion].
  destruct (homepagePath_test (logicalPath req)); crunch; [discriminate|].
  destruct (String.eqb cv "free-pro-team@latest"); crunch; [discriminate|].
  destruct (allVersions !! cv) as [entry|]; [discriminate|].
  destruct (inheritedKey cv); [|discriminate]. intros _. cbn [isProperty]. crunch.
  reflexivity.
Qed.

Lemma titleThrows_ext req c c' :
  currentVersion c = currentVersion c' -> titleThrows req c = titleThrows req c'.
Proof. intros Hv. unfold titleThrows. rewrite Hv. reflexivity. Qed.

(** The title depends on the plain title, the version and the site suffix. *)
Lemma composedTitle_ext req c c' p p' :
  titlePlainText p = titlePlainText p' ->
  currentVersion c = currentVersion c' ->
  github_docs c = github_docs c' ->
  composedTitle req c p = composedTitle req c' p'.
Proof. intros Ht Hv Hg. unfold composedTitle. rewrite Ht, Hv, Hg. reflexivity. Qed.

(** *** The answer *)

Lemma respond_delegates req w :
  bool_decide (is_Some (query req !! "json")) && NODE_ENV_is_not "production" = false ->
  respond req w =
    (Returned (Some Delegate),
     mkWorld (ctx w) (res w) (trace w ++ [NextHandleRequest]) (polls w)).
Proof. intros Hno. unfold respond. rewrite Hno. reflexivity. Qed.

Lemma respond_json req w q :
  NODE_ENV_is_not "production" = true ->
  query req !! "json" = Some q ->
  respond req w =
    (let payload :=
       if Nat.ltb 1 (String.length q) then get (ctx w) q else shallowListing (ctx w) in
     (Returned (Some (RespondJson payload)),
      mkWorld (ctx w) (send (SentJson payload) (res w)) (trace w) (polls w))).
Proof.
  intros Henv Hq. unfold respond. rewrite Henv, Hq.
  rewrite bool_decide_true by eauto. cbn [andb]. unfold json. run.
  destruct (Nat.ltb 1 (String.length q)); reflexivity.
Qed.

Lemma NODE_ENV_production :
  NODE_ENV = Some "production" -> NODE_ENV_is_not "production" = false.
Proof. intros Henv. unfold NODE_ENV_is_not. rewrite Henv. reflexivity. Qed.

Lemma NODE_ENV_not_production :
  NODE_ENV <> Some "production" -> NODE_ENV_is_not "production" = true.
Proof.
  intros Henv. unfold NODE_ENV_is_not. destruct NODE_ENV as [m|]; [|reflexivity].
  apply negb_true_iff, String.eqb_neq. congruence.
Qed.

(** The answer is always a terminal action, and leaves the context alone. *)
Lemma respond_frame req w :
  respond req w =
    (Returned (Some Delegate),
     mkWorld (ctx w) (res w) (trace w ++ [NextHandleRequest]) (polls w)) \/
  exists payload,
    NODE_ENV_is_not "production" = true /\
    respond req w =
      (Returned (Some (RespondJson payload)),
       mkWorld (ctx w) (send (SentJson payload) (res w)) (trace w) (polls w)).
Proof.
  destruct (bool_decide (is_Some (query req !! "json")) && NODE_ENV_is_not "production")
    eqn:Hdebug.
  - right. apply andb_true_iff in Hdebug as [Hq Henv].
    apply bool_decide_eq_true in Hq as [q Hq].
    eexists. split; [exact Henv|]. rewrite (respond_json req w q Henv Hq). reflexivity.
  - left. apply respond_delegates, Hdebug.
Qed.

(** *** Headers *)

Lemma cacheControl_no_cache r :
  headers (cacheControlFactory 0 r) !! "Cache-Control" = Some (CacheControlValue NoCache).
Proof. unfold cacheControlFactory, setHeader. cbn [headers]. apply lookup_insert_eq. Qed.

Lemma lastModified_cacheControl p r :
  headers (lastModified p r) !! "Cache-Control" = headers r !! "Cache-Control".
Proof.
  unfold lastModified. destruct (truthy (effectiveDate p)); [|reflexivity].
  unfold setHeader. cbn [headers]. apply lookup_insert_ne. discriminate.
Qed.

Lemma lastModified_body p r : body (lastModified p r) = body r.
Proof. unfold lastModified. destruct (truthy (effectiveDate p)); reflexivity. Qed.

Lemma method_not_HEAD req : method req <> "HEAD" -> String.eqb (method req) "HEAD" = false.
Proof. apply String.eqb_neq. Qed.

(** *** The pipeline past the first checkpoint *)

(** Every run with a page and a method other than HEAD goes one of five
    ways: it stops at the first checkpoint; a collaborator fails; it stops
    at the second checkpoint; it reaches the title and the answer; or it
    fails in the title.  The context and the response at each of these
    points are given in full. *)
Lemma renderPage_pipeline req w p :
  page (ctx w) = Some p ->
  String.eqb (method req) "HEAD" = false ->
  let r1 := lastModified p (htmlCacheControl (res w)) in
  let p1 := set_languageVariants (getLanguageVariants (logicalPath req)) p in
  exists out,
    renderPage req w = out /\
    ((isConnectionDropped (polls w) = true /\
      out = (Returned None,
             mkWorld (withLanguageVariants req (ctx w)) r1 (trace w) (S (polls w)))) \/
     (isConnectionDropped (polls w) = false /\
      exists c evs,
        page c = Some p1 /\ Forall (fun e => isHandOver e = false) evs /\
        currentVersion c = currentVersion (ctx w) /\
        github_docs c = github_docs (ctx w) /\
        ((~ UpstreamAnswers req w /\
          exists e n, out = (Thrown e, mkWorld c r1 (trace w ++ evs) n)) \/
         (isConnectionDropped (S (polls w)) = true /\
          out = (Returned None, mkWorld c r1 (trace w ++ evs) (S (S (polls w))))) \/
         (isConnectionDropped (S (polls w)) = false /\
          titleThrows req (ctx w) = false /\
          out = respond req
                  (mkWorld (withPage (set_fullTitle (composedTitle req (ctx w) p)) c) r1
                     (trace w ++ evs) (S (S (polls w))))) \/
         (isConnectionDropped (S (polls w)) = false /\
          titleThrows req (ctx w) = true /\
          out = (Thrown TypeError,
                 mkWorld (withPage (set_fullTitle (titlePlainText p +:+ " - ")) c) r1
                   (trace w ++ evs) (S (S (polls w)))))))).
Proof.
  intros Hpage Hm r1 p1.
  rewrite (renderPage_first_checkpoint req w p Hpage Hm). fold r1.
  assert (Hp1 : page (withLanguageVariants req (ctx w)) = Some p1).
  { unfold withLanguageVariants, withPage. cbn [page]. rewrite Hpage. reflexivity. }
  remember (withLanguageVariants req (ctx w)) as c1 eqn:Hc1.
  assert (Hcv : currentVersion c1 = currentVersion (ctx w)) by (subst c1; reflexivity).
  assert (Hgd : github_docs c1 = github_docs (ctx w)) by (subst c1; reflexivity).
  eexists. split; [reflexivity|].
  unfold consultConnectionMonitor. run.
  destruct (isConnectionDropped (polls w)) eqn:Hd1; [left; split; reflexivity|].
  right. split; [reflexivity|].
  (* the rendering step *)
  destruct (buildRenderedPage_frame req (mkWorld c1 r1 (trace w) (S (polls w))) p1 Hp1)
    as (rr & Hrr & Hrok).
  rewrite Hrr. cbn [ctx res trace polls] in *.
  destruct rr as [html|e].
  2:{ exists c1, [PageRenderTimed ["path:" +:+ logicalPath req]].
      repeat (split; [first [assumption | repeat constructor]|]).
      left. split; [|eauto].
      intros [[h Hh] _]. rewrite <- Hc1 in Hh.
      destruct (Hrok _ Hh). discriminate. }
  (* the mini-toc step *)
  assert (Hp2 : page (set_renderedPage html c1) = Some p1) by exact Hp1.
  destruct (buildMiniTocItems_frame req
              (mkWorld (set_renderedPage html c1) r1
                 (trace w ++ [PageRenderTimed ["path:" +:+ logicalPath req]])
                 (S (polls w))) p1 Hp2)
    as (rm & evs & Hrm & Hevs & Hmok).
  rewrite Hrm. cbn [ctx res trace polls] in *.
  rewrite <- app_assoc.
  destruct rm as [items|e].
  2:{ exists (set_renderedPage html c1), (PageRenderTimed ["path:" +:+ logicalPath req] :: evs).
      repeat (split; [first [assumption | constructor; [reflexivity|assumption]]|]).
      left. split; [|eauto].
      intros [_ Hg]. destruct Hmok as [? ?]; [|discriminate].
      intros Hshow. exact (Hg p html Hpage Hshow). }
  exists (set_miniTocItems items (set_renderedPage html c1)),
    (PageRenderTimed ["path:" +:+ logicalPath req] :: evs).
  repeat (split; [first [assumption | constructor; [reflexivity|assumption]]|]).
  right.
  destruct (isConnectionDropped (S (polls w))) eqn:Hd2; [left; split; reflexivity|].
  right.
  assert (Hsame : titleThrows req (set_miniTocItems items (set_renderedPage html c1))
                  = titleThrows req (ctx w)) by (apply titleThrows_ext; exact Hcv).
  destruct (titleThrows req (ctx w)) eqn:Hthrows.
  - right. split; [reflexivity|]. split; [reflexivity|].
    erewrite composeFullTitle_throws by (exact Hp1 || exact Hsame).
    reflexivity.
  - left. split; [reflexivity|]. split; [reflexivity|].
    erewrite composeFullTitle_run by (exact Hp1 || exact Hsame).
    cbn [ctx res trace polls].
    rewrite (composedTitle_ext req _ (ctx w) p1 p) by (reflexivity || assumption).
    reflexivity.
Qed.

(** ** The claims *)

(** C1. When the resolved page is absent, whatever the method and the
    query, the no-cache policy is applied to the response, the not-found
    renderer of the next application is called, and the outcome is
    RespondNotFound; the context (title included) is left as it was, the
    connection monitor is not consulted, and neither the renderer nor the
    mini-toc extractor is called. *)
Theorem missing_page_responds_not_found req w :
  page (ctx w) = None ->
  exists evs,
    renderPage req w =
      (Returned (Some RespondNotFound),
       mkWorld (ctx w) (noCacheControl (res w)) (trace w ++ evs ++ [Render404]) (polls w)) /\
    headers (noCacheControl (res w)) !! "Cache-Control" = Some (CacheControlValue NoCache) /\
    Forall (fun e => isRenderingWork e = false) (evs ++ [Render404]).
Proof.
  intros Hpage. rewrite (renderPage_missing req w Hpage).
  destruct (if NODE_ENV_is_not "test" then _ else _) as [target|].
  - exists [ConsoleError (redirectNotFoundMessage target)].
    split; [reflexivity|]. split; [apply cacheControl_no_cache|].
    repeat constructor.
  - exists []. split; [reflexivity|]. split; [apply cacheControl_no_cache|].
    repeat constructor.
Qed.

(** C2. A HEAD request for a present page gets RespondEmpty: status 200,
    a body of length zero, the no-cache policy and no other header; the
    context and the trace of collaborator calls are left as they were, so
    nothing is rendered and no mini-toc is built. *)
Theorem head_responds_empty req w p :
  page (ctx w) = Some p ->
  method req = "HEAD" ->
  exists r' text,
    renderPage req w =
      (Returned (Some RespondEmpty), mkWorld (ctx w) r' (trace w) (polls w)) /\
    statusCode r' = 200 /\
    body r' = Some (SentText text) /\ String.length text = 0%nat /\
    headers r' = <["Cache-Control" := CacheControlValue NoCache]> (headers (res w)).
Proof.
  intros Hpage Hm. rewrite (renderPage_HEAD req w p Hpage Hm).
  eexists _, "". repeat split.
Qed.

(** C5. When the connection monitor reports a dropped connection at the
    first checkpoint, the run stops with no terminal action, no
    collaborator has been called (the renderer in particular) and no body
    has been written.  When it reports it at the second checkpoint, after
    the rendering and mini-toc steps, the run stops with no terminal
    action too: [page.fullTitle] is as it was, no body has been written
    and no handler of the next application has been called. *)
Theorem dropped_connection_stops_pipeline req w p :
  page (ctx w) = Some p ->
  method req <> "HEAD" ->
  (isConnectionDropped (polls w) = true ->
   exists w',
     renderPage req w = (Returned None, w') /\
     trace w' = trace w /\ body (res w') = body (res w)) /\
  (UpstreamAnswers req w ->
   isConnectionDropped (polls w) = false ->
   isConnectionDropped (S (polls w)) = true ->
   exists w' p' evs,
     renderPage req w = (Returned None, w') /\
     page (ctx w') = Some p' /\ fullTitle p' = fullTitle p /\
     body (res w') = body (res w) /\
     trace w' = trace w ++ evs /\ Forall (fun e => isHandOver e = false) evs).
Proof.
  intros Hpage Hm.
  destruct (renderPage_pipeline req w p Hpage (method_not_HEAD req Hm))
    as (out & -> & [[Hd1 ->]|(Hd1 & c & evs & Hc & Hevs & _ & _ & Hout)]).
  - split.
    + intros _. eexists. split; [reflexivity|]. cbn [trace res].
      split; [reflexivity|]. rewrite lastModified_body. reflexivity.
    + intros _ Hd. congruence.
  - split; [intros Hd; congruence|]. intros Hup _ Hd2.
    destruct Hout as [[Hnup _]|[[_ ->]|[[Hd _]|[Hd _]]]];
      [contradiction| |congruence|congruence].
    eexists _, _, evs. split; [reflexivity|]. cbn [ctx res trace].
    split; [exact Hc|]. split; [reflexivity|].
    split; [rewrite lastModified_body; reflexivity|]. split; [reflexivity|assumption].
Qed.

(** C10. An abort at the first checkpoint leaves in place what was done
    before it: the response carries the directive of the html cache
    policy, it carries Last-Modified when the page declares an effective
    date, and [page.languageVariants] has been assigned; no terminal
    action is produced and no body is written. *)
Theorem first_checkpoint_abort_keeps_effects req w p :
  page (ctx w) = Some p ->
  method req <> "HEAD" ->
  isConnectionDropped (polls w) = true ->
  exists w' p',
    renderPage req w = (Returned None, w') /\
    res w' = lastModified p (htmlCacheControl (res w)) /\
    headers (res w') !! "Cache-Control" = Some (CacheControlValue NoCache) /\
    (forall d, truthy (effectiveDate p) = Some d ->
               headers (res w') !! "Last-Modified" = Some (TextValue (toUTCString d))) /\
    page (ctx w') = Some p' /\
    languageVariants p' = Some (getLanguageVariants (logicalPath req)) /\
    body (res w') = body (res w).
Proof.
  intros Hpage Hm Hd.
  destruct (renderPage_pipeline req w p Hpage (method_not_HEAD req Hm))
    as (out & -> & [[_ ->]|(Hd1 & _)]); [|congruence].
  eexists _, _. split; [reflexivity|]. cbn [ctx res].
  split; [reflexivity|].
  split; [rewrite lastModified_cacheControl; apply cacheControl_no_cache|].
  split.
  { intros d Hdate. unfold lastModified. rewrite Hdate.
    unfold setHeader. cbn [headers]. apply lookup_insert_eq. }
  split.
  { unfold withLanguageVariants, withPage. cbn [page]. rewrite Hpage. reflexivity. }
  split; [reflexivity|]. rewrite lastModified_body. reflexivity.
Qed.

(** C3. In production no request, whatever its query, gets the
    debugging answer: the outcome is never RespondJson.  A run that passes
    both checkpoints and composes the title (it fails there when the
    current version names a property that the catalog only inherits)
    hands the request over to the next application (Delegate), and writes
    no body itself. *)
Theorem production_never_answers_json req w :
  NODE_ENV = Some "production" ->
  (forall payload, fst (renderPage req w) <> Returned (Some (RespondJson payload))) /\
  (forall p,
     page (ctx w) = Some p ->
     method req <> "HEAD" ->
     UpstreamAnswers req w ->
     isConnectionDropped (polls w) = false ->
     isConnectionDropped (S (polls w)) = false ->
     titleThrows req (ctx w) = false ->
     exists w',
       renderPage req w = (Returned (Some Delegate), w') /\
       last (trace w') = Some NextHandleRequest /\
       body (res w') = body (res w)).
Proof.
  intros Henv.
  assert (Hoff : forall r, bool_decide (is_Some (query r !! "json"))
                           && NODE_ENV_is_not "production" = false).
  { intros r. rewrite (NODE_ENV_production Henv). apply andb_false_r. }
  split.
  - intros payload.
    destruct (page (ctx w)) as [p|] eqn:Hpage.
    2:{ rewrite (renderPage_missing req w Hpage). discriminate. }
    destruct (String.eqb (method req) "HEAD") eqn:Hm.
    { apply String.eqb_eq in Hm. rewrite (renderPage_HEAD req w p Hpage Hm). discriminate. }
    destruct (renderPage_pipeline req w p Hpage Hm)
      as (out & -> & [[_ ->]|(_ & c & evs & _ & _ & _ & _ & Hout)]); [discriminate|].
    destruct Hout as [(_ & e & n & ->)|[[_ ->]|[(_ & _ & ->)|(_ & _ & ->)]]];
      try discriminate.
    rewrite respond_delegates by apply Hoff. discriminate.
  - intros p Hpage Hm Hup Hd1 Hd2 Htitle.
    destruct (renderPage_pipeline req w p Hpage (method_not_HEAD req Hm))
      as (out & -> & [[Hd ->]|(_ & c & evs & _ & _ & _ & _ & Hout)]); [congruence|].
    destruct Hout as [[Hnup _]|[[Hd _]|[(_ & _ & ->)|(_ & Hthrows & _)]]];
    [contradiction|congruence| |congruence].
    rewrite respond_delegates by apply Hoff.
    eexists. split; [reflexivity|]. cbn [trace res].
    split; [apply last_snoc|]. rewrite lastModified_body. reflexivity.
Qed.

(** C4, as amended. Outside production, for a present page and a run
    that passes both checkpoints and composes the title (it fails there
    when the current version names a property that the catalog only
    inherits), a request with the [json] parameter is answered by
    [res.json]: with the shallow listing (the advisory message
    and the names of the top-level keys of the context, no value of the
    context) when the value of the parameter has at most one character,
    and with the lookup [get(context, value)] when it has two characters
    or more, with or without a separator.  The answer is what the lookup
    gives, [undefined] included: an unresolved path raises no error. *)
Theorem debug_answer_by_length req w p q :
  NODE_ENV <> Some "production" ->
  page (ctx w) = Some p ->
  method req <> "HEAD" ->
  UpstreamAnswers req w ->
  isConnectionDropped (polls w) = false ->
  isConnectionDropped (S (polls w)) = false ->
  titleThrows req (ctx w) = false ->
  query req !! "json" = Some q ->
  exists w' payload,
    renderPage req w = (Returned (Some (RespondJson payload)), w') /\
    body (res w') = Some (SentJson payload) /\
    ((String.length q <= 1)%nat ->
     payload = JObj [("message", JStr advisoryMessage);
                     ("keys", JArr (map JStr (Object_keys (ctx w'))))]) /\
    ((1 < String.length q)%nat -> payload = get (ctx w') q).
Proof.
  intros Henv Hpage Hm Hup Hd1 Hd2 Htitle Hq.
  destruct (renderPage_pipeline req w p Hpage (method_not_HEAD req Hm))
    as (out & -> & [[Hd ->]|(_ & c & evs & _ & _ & _ & _ & Hout)]); [congruence|].
  destruct Hout as [[Hnup _]|[[Hd _]|[(_ & _ & ->)|(_ & Hthrows & _)]]];
    [contradiction|congruence| |congruence].
  rewrite (respond_json req _ q (NODE_ENV_not_production Henv) Hq).
  cbv zeta. eexists _, _. split; [reflexivity|]. cbn [ctx res body send].
  split; [reflexivity|]. split; intros Hlen.
  - destruct (Nat.ltb_spec 1 (String.length q)); [lia|reflexivity].
  - destruct (Nat.ltb_spec 1 (String.length q)); [reflexivity|lia].
Qed.

(** C6. Off the homepage, for a current version that is not
    free-pro-team@latest and has an entry in the catalog, a run that
    passes both checkpoints leaves in [page.fullTitle] the plain title,
    " - ", the version title of the entry, with "GitHub " in front of it
    exactly when it does not contain "GitHub", and " Docs".  For the version
    title "Enterprise Server 3.5" the title ends with
    "GitHub Enterprise Server 3.5 Docs". *)
Theorem version_title_suffix req w p entry :
  page (ctx w) = Some p ->
  method req <> "HEAD" ->
  UpstreamAnswers req w ->
  isConnectionDropped (polls w) = false ->
  isConnectionDropped (S (polls w)) = false ->
  homepagePath_test (logicalPath req) = false ->
  currentVersion (ctx w) <> "free-pro-team@latest" ->
  allVersions !! currentVersion (ctx w) = Some entry ->
  exists action w' p' title,
    renderPage req w = (Returned (Some action), w') /\
    page (ctx w') = Some p' /\
    fullTitle p' = Some title /\
    title = titlePlainText p +:+ " - " +:+
            (if includes (versionTitle entry) "GitHub" then versionTitle entry
             else "GitHub " +:+ versionTitle entry) +:+ " Docs" /\
    (versionTitle entry = "Enterprise Server 3.5" ->
     endsWith title "GitHub Enterprise Server 3.5 Docs" = true).
Proof.
  intros Hpage Hm Hup Hd1 Hd2 Hhome Hversion Hentry.
  assert (Htitled : titleThrows req (ctx w) = false).
  { unfold titleThrows, lookupVersion. rewrite Hentry. apply andb_false_r. }
  destruct (renderPage_pipeline req w p Hpage (method_not_HEAD req Hm))
    as (out & -> & [[Hd ->]|(_ & c & evs & Hc & _ & _ & _ & Hout)]); [congruence|].
  destruct Hout as [[Hnup _]|[[Hd _]|[(_ & _ & ->)|(_ & Hthrows & _)]]];
    [contradiction|congruence| |congruence].
  assert (Htitle : composedTitle req (ctx w) p =
                   titlePlainText p +:+ " - " +:+
                   (if includes (versionTitle entry) "GitHub" then versionTitle entry
                    else "GitHub " +:+ versionTitle entry) +:+ " Docs").
  { unfold composedTitle, brandedTitle. rewrite Hhome, Hentry.
    apply String.eqb_neq in Hversion. rewrite Hversion. reflexivity. }
  assert (Hfinal : exists p',
             page (withPage (set_fullTitle (composedTitle req (ctx w) p)) c) = Some p' /\
             fullTitle p' = Some (composedTitle req (ctx w) p)).
  { unfold withPage. cbn [page]. rewrite Hc. eexists. split; reflexivity. }
  destruct Hfinal as (p' & Hp' & Hfull).
  assert (Hends : versionTitle entry = "Enterprise Server 3.5" ->
                  endsWith (composedTitle req (ctx w) p)
                    "GitHub Enterprise Server 3.5 Docs" = true).
  { intros Hvt. rewrite Htitle, Hvt.
    change (endsWith (titlePlainText p +:+ " - " +:+ "GitHub Enterprise Server 3.5 Docs")
              "GitHub Enterprise Server 3.5 Docs" = true).
    rewrite <- append_assoc. apply endsWith_append. }
  rewrite <- Htitle.
  destruct (respond_frame req
              (mkWorld (withPage (set_fullTitle (composedTitle req (ctx w) p)) c)
                 (lastModified p (htmlCacheControl (res w))) (trace w ++ evs)
                 (S (S (polls w)))))
    as [->|(payload & _ & ->)]; eexists _, _, p', _; cbn [ctx]; eauto.
Qed.

(** C7. The rendering step calls the timed renderer once and returns
    its output with the prerendered fragment of the current version
    appended: the objects fragment when the logical path ends with
    graphql/reference/objects, the input-objects fragment when it ends
    with graphql/reference/input-objects, the mutations fragment when it
    ends with graphql/reference/mutations, and nothing when it ends with
    none of them.  No path ends with two of the three suffixes, so at most
    one fragment is appended. *)
Theorem rendered_page_augmentation req w p base :
  page (ctx w) = Some p ->
  render (ctx w) = Returned base ->
  let path := logicalPath req in
  let objects := endsWith path "graphql/reference/objects" in
  let inputObjects := endsWith path "graphql/reference/input-objects" in
  let mutations := endsWith path "graphql/reference/mutations" in
  exists html,
    buildRenderedPage req w =
      (Returned html,
       mkWorld (ctx w) (res w) (trace w ++ [PageRenderTimed ["path:" +:+ path]]) (polls w)) /\
    (objects = true ->
     html = base +:+ prerenderedObjectsForCurrentVersion (graphql (ctx w))) /\
    (inputObjects = true ->
     html = base +:+ prerenderedInputObjectsForCurrentVersion (graphql (ctx w))) /\
    (mutations = true ->
     html = base +:+ prerenderedMutationsForCurrentVersion (graphql (ctx w))) /\
    (objects = false -> inputObjects = false -> mutations = false -> html = base) /\
    objects && inputObjects = false /\
    objects && mutations = false /\
    inputObjects && mutations = false.
Proof.
  intros Hpage Hrender path objects inputObjects mutations.
  rewrite (buildRenderedPage_run req w p base Hpage Hrender). fold path.
  assert (Hoi : objects && inputObjects = false).
  { destruct objects eqn:Ho, inputObjects eqn:Hi; try reflexivity.
    destruct (endsWith_chain _ _ _ Ho Hi) as [Hx|Hx]; vm_compute in Hx; discriminate. }
  assert (Hom : objects && mutations = false).
  { destruct objects eqn:Ho, mutations eqn:Hmu; try reflexivity.
    destruct (endsWith_chain _ _ _ Ho Hmu) as [Hx|Hx]; vm_compute in Hx; discriminate. }
  assert (Him : inputObjects && mutations = false).
  { destruct inputObjects eqn:Hi, mutations eqn:Hmu; try reflexivity.
    destruct (endsWith_chain _ _ _ Hi Hmu) as [Hx|Hx]; vm_compute in Hx; discriminate. }
  eexists. split; [reflexivity|].
  fold objects inputObjects mutations.
  destruct objects, inputObjects, mutations; try discriminate;
    repeat split; intros; try discriminate; reflexivity.
Qed.

(** C8, as amended. On the missing-page path the diagnostic about the
    failed redirect is written to the console exactly when NODE_ENV is not
    "test" and [context.redirectNotFound] is a non-empty string; the
    message names the target.  With or without the diagnostic, the
    outcome is RespondNotFound and the response is the one the no-cache
    policy gives. *)
Theorem missing_page_diagnostic req w :
  page (ctx w) = None ->
  exists evs,
    renderPage req w =
      (Returned (Some RespondNotFound),
       mkWorld (ctx w) (noCacheControl (res w)) (trace w ++ evs ++ [Render404]) (polls w)) /\
    (NODE_ENV <> Some "test" ->
     forall target, redirectNotFound (ctx w) = Some target -> target <> "" ->
     evs = [ConsoleError (redirectNotFoundMessage target)]) /\
    (NODE_ENV = Some "test" \/ redirectNotFound (ctx w) = None \/
     redirectNotFound (ctx w) = Some "" ->
     evs = []).
Proof.
  intros Hpage. rewrite (renderPage_missing req w Hpage).
  unfold NODE_ENV_is_not.
  destruct NODE_ENV as [mode|] eqn:Henv.
  - destruct (String.eqb_spec mode "test") as [->|Hmode]; cbn [negb].
    + exists []. split; [reflexivity|]. split; [congruence|reflexivity].
    + destruct (redirectNotFound (ctx w)) as [[|ch rest]|] eqn:Hhint; cbn [truthy].
      * exists []. split; [reflexivity|]. split; [|reflexivity].
        intros _ target [= <-] Hne. congruence.
      * eexists [_]. split; [reflexivity|]. split.
        { intros _ target [= <-] _. reflexivity. }
        { intros [[= Hx]|[Hx|Hx]]; congruence. }
      * exists []. split; [reflexivity|]. split; [|reflexivity].
        intros _ target Hx. discriminate.
  - destruct (redirectNotFound (ctx w)) as [[|ch rest]|] eqn:Hhint; cbn [truthy].
    + exists []. split; [reflexivity|]. split; [|reflexivity].
      intros _ target [= <-] Hne. congruence.
    + eexists [_]. split; [reflexivity|]. split.
      { intros _ target [= <-] _. reflexivity. }
      { intros [Hx|[Hx|Hx]]; congruence. }
    + exists []. split; [reflexivity|]. split; [|reflexivity].
      intros _ target Hx. discriminate.
Qed.

(** C9. The no-cache policy and the html policy are the same function of
    the response, which sets the Cache-Control header to the no-cache
    directive; every run that ends with a terminal action (not found,
    empty, JSON or delegation) leaves that directive on the response. *)
Theorem cache_policies_identical :
  (forall r, noCacheControl r = htmlCacheControl r) /\
  (forall r, headers (htmlCacheControl r) !! "Cache-Control"
             = Some (CacheControlValue NoCache)) /\
  (forall req w action w',
     renderPage req w = (Returned (Some action), w') ->
     headers (res w') !! "Cache-Control" = Some (CacheControlValue NoCache)).
Proof.
  split; [reflexivity|]. split; [apply cacheControl_no_cache|].
  intros req w action w'.
  destruct (page (ctx w)) as [p|] eqn:Hpage.
  2:{ rewrite (renderPage_missing req w Hpage). intros [= _ <-].
      apply cacheControl_no_cache. }
  destruct (String.eqb (method req) "HEAD") eqn:Hm.
  { apply String.eqb_eq in Hm. rewrite (renderPage_HEAD req w p Hpage Hm).
    intros [= _ <-]. apply cacheControl_no_cache. }
  destruct (renderPage_pipeline req w p Hpage Hm)
    as (out & -> & [[_ ->]|(_ & c & evs & _ & _ & _ & _ & Hout)]); [discriminate|].
  destruct Hout as [(_ & e & n & ->)|[[_ ->]|[(_ & _ & ->)|(_ & _ & ->)]]];
      try discriminate.
  destruct (respond_frame req
              (mkWorld (withPage (set_fullTitle (composedTitle req (ctx w) p)) c)
                 (lastModified p (htmlCacheControl (res w))) (trace w ++ evs)
                 (S (S (polls w)))))
    as [->|(payload & _ & ->)]; intros [= _ <-]; cbn [res send headers];
    rewrite lastModified_cacheControl; apply cacheControl_no_cache.
Qed.

End Properties.

(** ** The sample deployment at work *)

Lemma Sample_upstream env dropped req w :
  @UpstreamAnswers (Sample.collaborators env dropped) req w.
Proof. split; intros; eexists; reflexivity. Qed.

(** A GET for an article of Enterprise Server 3.5 is rendered, titled and
    handed over. *)
Example sample_GET :
  let E := Sample.collaborators (Some "production") Sample.alive in
  let out := renderPage (Sample.request "GET" "/en/enterprise-server@3.5/foo" ∅)
               (Sample.world Sample.context) in
  fst out = Returned (Some Delegate) /\
  trace (snd out) =
    [PageRenderTimed ["path:/en/enterprise-server@3.5/foo"];
     GetMiniTocItems (Some "<h2>Foo</h2>") 2 "";
     NextHandleRequest] /\
  (fullTitle <$> page (ctx (snd out))) = Some (Some "Foo - GitHub Enterprise Server 3.5 Docs") /\
  renderedPage (ctx (snd out)) = Some "<h2>Foo</h2>" /\
  polls (snd out) = 2%nat.
Proof. vm_compute. repeat split. Qed.

(** The objects page of the GraphQL reference gets its fragment. *)
Example sample_objects_page :
  let E := Sample.collaborators (Some "production") Sample.alive in
  let out := renderPage (Sample.request "GET" "/en/graphql/reference/objects" ∅)
               (Sample.world Sample.context) in
  renderedPage (ctx (snd out)) = Some "<h2>Foo</h2><div>objects</div>".
Proof. vm_compute. reflexivity. Qed.

(** The homepage keeps its plain title. *)
Example sample_homepage :
  let E := Sample.collaborators (Some "production") Sample.alive in
  let out := renderPage (Sample.request "GET" "/en" ∅) (Sample.world Sample.context) in
  (fullTitle <$> page (ctx (snd out))) = Some (Some "Foo").
Proof. vm_compute. reflexivity. Qed.

(** The separator alone, [?json=.], has one character and gets the
    listing of the keys too. *)
Example sample_separator_alone :
  let E := Sample.collaborators (Some "development") Sample.alive in
  let out := renderPage (Sample.request "GET" "/en/foo" {["json" := "."]})
               (Sample.world Sample.context) in
  fst out = Returned (Some (RespondJson (shallowListing (ctx (snd out))))).
Proof. vm_compute. reflexivity. Qed.

(** A bare [?json] outside production lists the keys. *)
Example sample_bare_json :
  let E := Sample.collaborators (Some "development") Sample.alive in
  let out := renderPage (Sample.request "GET" "/en/foo" {["json" := ""]})
               (Sample.world Sample.context) in
  fst out = Returned (Some (RespondJson (shallowListing (ctx (snd out))))).
Proof. vm_compute. reflexivity. Qed.

(** ** Witnesses and counterexamples *)

Lemma missing_page_responds_not_found_witness :
  let E := Sample.collaborators (Some "production") Sample.alive in
  let req := Sample.request "HEAD" "/en/missing" {["json" := "page"]} in
  let w := Sample.world Sample.lostContext in
  page (ctx w) = None /\
  exists evs,
    renderPage req w =
      (Returned (Some RespondNotFound),
       mkWorld (ctx w) (noCacheControl (res w)) (trace w ++ evs ++ [Render404]) (polls w)) /\
    headers (noCacheControl (res w)) !! "Cache-Control" = Some (CacheControlValue NoCache) /\
    Forall (fun e => isRenderingWork e = false) (evs ++ [Render404]).
Proof.
  intros E req w. split; [reflexivity|].
  apply (@missing_page_responds_not_found E req w). reflexivity.
Defined.

Lemma head_responds_empty_witness :
  let E := Sample.collaborators (Some "development") Sample.alive in
  let req := Sample.request "HEAD" "/en/foo" {["json" := "page"]} in
  let w := Sample.world Sample.context in
  page (ctx w) = Some Sample.article /\ method req = "HEAD" /\
  exists r' text,
    renderPage req w =
      (Returned (Some RespondEmpty), mkWorld (ctx w) r' (trace w) (polls w)) /\
    statusCode r' = 200 /\
    body r' = Some (SentText text) /\ String.length text = 0%nat /\
    headers r' = <["Cache-Control" := CacheControlValue NoCache]> (headers (res w)).
Proof.
  intros E req w. split; [reflexivity|]. split; [reflexivity|].
  apply (@head_responds_empty E req w Sample.article); reflexivity.
Defined.

Lemma production_never_answers_json_witness :
  let E := Sample.collaborators (Some "production") Sample.alive in
  let req := Sample.request "GET" "/en/foo" {["json" := "page.titlePlainText"]} in
  let w := Sample.world Sample.context in
  NODE_ENV = Some "production" /\
  (forall payload, fst (renderPage req w) <> Returned (Some (RespondJson payload))) /\
  exists w',
    renderPage req w = (Returned (Some Delegate), w') /\
    last (trace w') = Some NextHandleRequest /\
    body (res w') = body (res w).
Proof.
  intros E req w. split; [reflexivity|].
  destruct (@production_never_answers_json E req w eq_refl) as [Hnever Hdelegate].
  split; [exact Hnever|].
  apply (Hdelegate Sample.article).
  - reflexivity.
  - discriminate.
  - apply Sample_upstream.
  - reflexivity.
  - reflexivity.
  - vm_compute. reflexivity.
Defined.

(** C4 as stated fails: outside production, [?json=page] has a single
    segment and no separator, and is answered with the lookup of [page] in
    the context, not with the shallow listing. *)
Lemma single_segment_gets_deep_lookup :
  let E := Sample.collaborators (Some "development") Sample.alive in
  let req := Sample.request "GET" "/en/enterprise-server@3.5/foo" {["json" := "page"]} in
  let out := renderPage req (Sample.world Sample.context) in
  includes "page" "." = false /\
  fst out = Returned (Some (RespondJson (get (ctx (snd out)) "page"))) /\
  fst out <> Returned (Some (RespondJson (shallowListing (ctx (snd out))))).
Proof.
  vm_compute. split; [reflexivity|]. split; [reflexivity|]. discriminate.
Qed.

Lemma debug_answer_by_length_witness :
  let E := Sample.collaborators (Some "development") Sample.alive in
  let req := Sample.request "GET" "/en/enterprise-server@3.5/foo" {["json" := "page"]} in
  let w := Sample.world Sample.context in
  exists w' payload,
    renderPage req w = (Returned (Some (RespondJson payload)), w') /\
    body (res w') = Some (SentJson payload) /\
    ((String.length "page" <= 1)%nat ->
     payload = JObj [("message", JStr advisoryMessage);
                     ("keys", JArr (map JStr (Object_keys (ctx w'))))]) /\
    ((1 < String.length "page")%nat -> payload = get (ctx w') "page").
Proof.
  intros E req w.
  apply (@debug_answer_by_length E req w Sample.article "page").
  - discriminate.
  - reflexivity.
  - discriminate.
  - apply Sample_upstream.
  - reflexivity.
  - reflexivity.
  - vm_compute. reflexivity.
  - reflexivity.
Defined.

Lemma dropped_connection_stops_pipeline_witness :
  let req := Sample.request "GET" "/en/enterprise-server@3.5/foo" ∅ in
  let w := Sample.world Sample.context in
  (let E := Sample.collaborators (Some "development") (Sample.droppedAt 0) in
   exists w',
     renderPage req w = (Returned None, w') /\
     trace w' = trace w /\ body (res w') = body (res w)) /\
  (let E := Sample.collaborators (Some "development") (Sample.droppedAt 1) in
   exists w' p' evs,
     renderPage req w = (Returned None, w') /\
     page (ctx w') = Some p' /\ fullTitle p' = fullTitle Sample.article /\
     body (res w') = body (res w) /\
     trace w' = trace w ++ evs /\ Forall (fun e => isHandOver e = false) evs).
Proof.
  intros req w. split; intros E.
  - apply (proj1 (@dropped_connection_stops_pipeline E req w Sample.article
                    eq_refl ltac:(discriminate))).
    reflexivity.
  - apply (proj2 (@dropped_connection_stops_pipeline E req w Sample.article
                    eq_refl ltac:(discriminate))).
    + apply Sample_upstream.
    + reflexivity.
    + reflexivity.
Defined.

Lemma version_title_suffix_witness :
  let E := Sample.collaborators (Some "production") Sample.alive in
  let req := Sample.request "GET" "/en/enterprise-server@3.5/foo" ∅ in
  let w := Sample.world Sample.context in
  let entry := mkVersion "Enterprise Server 3.5" in
  exists action w' p' title,
    renderPage req w = (Returned (Some action), w') /\
    page (ctx w') = Some p' /\
    fullTitle p' = Some title /\
    title = "Foo" +:+ " - " +:+
            (if includes (versionTitle entry) "GitHub" then versionTitle entry
             else "GitHub " +:+ versionTitle entry) +:+ " Docs" /\
    (versionTitle entry = "Enterprise Server 3.5" ->
     endsWith title "GitHub Enterprise Server 3.5 Docs" = true).
Proof.
  intros E req w entry.
  apply (@version_title_suffix E req w Sample.article entry).
  - reflexivity.
  - discriminate.
  - apply Sample_upstream.
  - reflexivity.
  - reflexivity.
  - reflexivity.
  - discriminate.
  - vm_compute. reflexivity.
Defined.

Lemma rendered_page_augmentation_witness :
  let E := Sample.collaborators (Some "production") Sample.alive in
  let req := Sample.request "GET" "/en/graphql/reference/input-objects" ∅ in
  let w := Sample.world Sample.context in
  exists html,
    buildRenderedPage req w =
      (Returned html,
       mkWorld (ctx w) (res w)
         (trace w ++ [PageRenderTimed ["path:" +:+ logicalPath req]]) (polls w)) /\
    html = "<h2>Foo</h2><div>input objects</div>".
Proof.
  intros E req w.
  destruct (@rendered_page_augmentation E req w Sample.article "<h2>Foo</h2>"
              eq_refl eq_refl) as (html & Hrun & _ & Hinput & _).
  exists html. split; [exact Hrun|]. apply Hinput. vm_compute. reflexivity.
Defined.

(** C8 as stated fails: in development mode, which is a test/dev mode, the
    diagnostic is written when the hint is present. *)
Lemma development_mode_gets_diagnostic :
  let E := Sample.collaborators (Some "development") Sample.alive in
  let out := renderPage (Sample.request "GET" "/en/missing" ∅)
               (Sample.world Sample.lostContext) in
  NODE_ENV = Some "development" /\
  redirectNotFound Sample.lostContext = Some "/en/missing" /\
  fst out = Returned (Some RespondNotFound) /\
  trace (snd out) = [ConsoleError (redirectNotFoundMessage "/en/missing"); Render404].
Proof. vm_compute. repeat split. Qed.

Lemma missing_page_diagnostic_witness :
  let E := Sample.collaborators (Some "development") Sample.alive in
  let req := Sample.request "GET" "/en/missing" ∅ in
  let w := Sample.world Sample.lostContext in
  exists evs,
    renderPage req w =
      (Returned (Some RespondNotFound),
       mkWorld (ctx w) (noCacheControl (res w)) (trace w ++ evs ++ [Render404]) (polls w)) /\
    evs = [ConsoleError (redirectNotFoundMessage "/en/missing")].
Proof.
  intros E req w.
  destruct (@missing_page_diagnostic E req w eq_refl) as (evs & Hrun & Hemit & _).
  exists evs. split; [exact Hrun|].
  apply Hemit; [discriminate|reflexivity|discriminate].
Defined.

Lemma cache_policies_identical_witness :
  let E := Sample.collaborators (Some "development") Sample.alive in
  let req := Sample.request "GET" "/en/foo" {["json" := ""]} in
  let out := renderPage req (Sample.world Sample.context) in
  headers (res (snd out)) !! "Cache-Control" = Some (CacheControlValue NoCache).
Proof.
  intros E req out.
  apply (proj2 (proj2 (@cache_policies_identical E)) req (Sample.world Sample.context)
           (RespondJson (shallowListing (ctx (snd out))))).
  vm_compute. reflexivity.
Defined.

Lemma first_checkpoint_abort_keeps_effects_witness :
  let E := Sample.collaborators (Some "production") (Sample.droppedAt 0) in
  let req := Sample.request "GET" "/en/foo" ∅ in
  let w := Sample.world Sample.context in
  exists w' p',
    renderPage req w = (Returned None, w') /\
    res w' = lastModified Sample.article (htmlCacheControl (res w)) /\
    headers (res w') !! "Cache-Control" = Some (CacheControlValue NoCache) /\
    (forall d, truthy (effectiveDate Sample.article) = Some d ->
               headers (res w') !! "Last-Modified" = Some (TextValue (toUTCString d))) /\
    page (ctx w') = Some p' /\
    languageVariants p' = Some (getLanguageVariants (logicalPath req)) /\
    body (res w') = body (res w).
Proof.
  intros E req w.
  apply (@first_checkpoint_abort_keeps_effects E req w Sample.article).
  - reflexivity.
  - discriminate.
  - reflexivity.
Defined.


(** ** Beyond the claims: failures, frames and what a run depends on *)

Section Stages.

Context `{Collaborators}.

Lemma buildRenderedPage_throws req w p e :
  page (ctx w) = Some p ->
  render (ctx w) = Thrown e ->
  buildRenderedPage req w =
    (Thrown e,
     mkWorld (ctx w) (res w)
       (trace w ++ [PageRenderTimed ["path:" +:+ logicalPath req]]) (polls w)).
Proof.
  intros Hpage Hrender. unfold buildRenderedPage, pageRenderTimed. run.
  rewrite Hpage. run. rewrite Hrender. reflexivity.
Qed.

Lemma buildMiniTocItems_run req w p :
  page (ctx w) = Some p ->
  buildMiniTocItems req w =
    (miniTocOutcome p (renderedPage (ctx w)),
     mkWorld (ctx w) (res w) (trace w ++ miniTocCall p (renderedPage (ctx w))) (polls w)).
Proof.
  intros Hpage. unfold buildMiniTocItems, miniTocOutcome, miniTocCall. run.
  rewrite Hpage. run.
  destruct (showMiniToc p); cbn [negb].
  - run. destruct (getMiniTocItems _ _ _); reflexivity.
  - rewrite app_nil_r. destruct w; reflexivity.
Qed.

(** The run of a request with a page and a method other than HEAD, stage
    by stage, with the world at each exit. *)
Lemma renderPage_stages req w p :
  page (ctx w) = Some p ->
  String.eqb (method req) "HEAD" = false ->
  let c1 := withLanguageVariants req (ctx w) in
  let r1 := lastModified p (htmlCacheControl (res w)) in
  let tag := PageRenderTimed ["path:" +:+ logicalPath req] in
  (isConnectionDropped (polls w) = true ->
   renderPage req w = (Returned None, mkWorld c1 r1 (trace w) (S (polls w)))) /\
  (isConnectionDropped (polls w) = false ->
   (forall e, render c1 = Thrown e ->
      renderPage req w = (Thrown e, mkWorld c1 r1 (trace w ++ [tag]) (S (polls w)))) /\
   (forall base, render c1 = Returned base ->
      let html := withFragment (logicalPath req) (graphql (ctx w)) base in
      let c2 := set_renderedPage html c1 in
      let evs := tag :: miniTocCall p (Some html) in
      (forall e, miniTocOutcome p (Some html) = Thrown e ->
         renderPage req w = (Thrown e, mkWorld c2 r1 (trace w ++ evs) (S (polls w)))) /\
      (forall items, miniTocOutcome p (Some html) = Returned items ->
         (isConnectionDropped (S (polls w)) = true ->
          renderPage req w =
            (Returned None,
             mkWorld (set_miniTocItems items c2) r1 (trace w ++ evs) (S (S (polls w))))) /\
         (isConnectionDropped (S (polls w)) = false ->
          (titleThrows req (ctx w) = false ->
           renderPage req w =
             respond req
               (mkWorld (withPage (set_fullTitle (composedTitle req (ctx w) p))
                           (set_miniTocItems items c2))
                  r1 (trace w ++ evs) (S (S (polls w))))) /\
          (titleThrows req (ctx w) = true ->
           renderPage req w =
             (Thrown TypeError,
              mkWorld (withPage (set_fullTitle (titlePlainText p +:+ " - "))
                         (set_miniTocItems items c2))
                r1 (trace w ++ evs) (S (S (polls w))))))))).
Proof.
  intros Hpage Hm c1 r1 tag.
  rewrite (renderPage_first_checkpoint req w p Hpage Hm). fold r1 c1.
  set (p1 := set_languageVariants (getLanguageVariants (logicalPath req)) p).
  assert (Hp1 : page c1 = Some p1).
  { unfold c1, withLanguageVariants, withPage. cbn [page]. rewrite Hpage. reflexivity. }
  unfold consultConnectionMonitor. run.
  split; [intros ->; reflexivity|]. intros ->.
  split.
  - intros e He.
    rewrite (buildRenderedPage_throws req (mkWorld c1 r1 (trace w) (S (polls w))) p1 e Hp1 He).
    reflexivity.
  - intros base Hbase.
    set (html := withFragment (logicalPath req) (graphql (ctx w)) base).
    set (c2 := set_renderedPage html c1).
    set (evs := tag :: miniTocCall p (Some html)).
    rewrite (buildRenderedPage_run req (mkWorld c1 r1 (trace w) (S (polls w))) p1 base Hp1 Hbase).
    cbn [ctx res trace polls].
    change (if endsWith (logicalPath req) "graphql/reference/objects" then _ else _)
      with html.
    fold c2.
    assert (Hp2 : page c2 = Some p1) by exact Hp1.
    fold tag.
    rewrite (buildMiniTocItems_run req
               (mkWorld c2 r1 (trace w ++ [tag]) (S (polls w))) p1 Hp2).
    cbn [ctx res trace polls].
    change (renderedPage c2) with (Some html).
    change (miniTocOutcome p1 (Some html)) with (miniTocOutcome p (Some html)).
    change (miniTocCall p1 (Some html)) with (miniTocCall p (Some html)).
    rewrite <- app_assoc. change ([tag] ++ miniTocCall p (Some html)) with evs.
    split.
    + intros e ->. reflexivity.
    + intros items ->.
      split; [intros ->; reflexivity|]. intros ->.
      assert (Hp3 : page (set_miniTocItems items c2) = Some p1) by exact Hp1.
      assert (Hsame : titleThrows req (set_miniTocItems items c2)
                      = titleThrows req (ctx w)) by (apply titleThrows_ext; reflexivity).
      split; intros Htitle.
      * erewrite composeFullTitle_run by (exact Hp3 || exact (eq_trans Hsame Htitle)).
        cbn [ctx res trace polls].
        rewrite (composedTitle_ext req _ (ctx w) p1 p) by reflexivity.
        reflexivity.
      * erewrite composeFullTitle_throws by (exact Hp3 || exact (eq_trans Hsame Htitle)).
        reflexivity.
Qed.

End Stages.

Section Further.

Context `{Collaborators}.


Lemma miniTocCall_no_handOver p html :
  Forall (fun e => isHandOver e = false) (miniTocCall p html).
Proof. unfold miniTocCall. destruct (showMiniToc p); repeat constructor. Qed.

Lemma contextInputs_withPage f c :
  (forall p, pageInputs (f p) = pageInputs p) ->
  contextInputs (withPage f c) = contextInputs c.
Proof.
  intros Hf. unfold contextInputs, withPage. cbn [page redirectNotFound currentVersion
    graphql github_docs]. destruct (page c) as [p|]; cbn [option_map]; [|reflexivity].
  rewrite Hf. reflexivity.
Qed.

(** A run that passes both checkpoints and does not fail in the title
    ends with a terminal action and the composed title in
    [page.fullTitle]. *)
Lemma renderPage_titled req w p :
  page (ctx w) = Some p ->
  method req <> "HEAD" ->
  UpstreamAnswers req w ->
  isConnectionDropped (polls w) = false ->
  isConnectionDropped (S (polls w)) = false ->
  titleThrows req (ctx w) = false ->
  exists action w' p',
    renderPage req w = (Returned (Some action), w') /\
    page (ctx w') = Some p' /\
    fullTitle p' = Some (composedTitle req (ctx w) p).
Proof.
  intros Hpage Hm Hup Hd1 Hd2 Htitled.
  destruct (renderPage_pipeline req w p Hpage (method_not_HEAD req Hm))
    as (out & -> & [[Hd ->]|(_ & c & evs & Hc & _ & _ & _ & Hout)]); [congruence|].
  destruct Hout as [[Hnup _]|[[Hd _]|[(_ & _ & ->)|(_ & Hthrows & _)]]];
    [contradiction|congruence| |congruence].
  assert (Hfinal : exists p',
             page (withPage (set_fullTitle (composedTitle req (ctx w) p)) c) = Some p' /\
             fullTitle p' = Some (composedTitle req (ctx w) p)).
  { unfold withPage. cbn [page]. rewrite Hc. eexists. split; reflexivity. }
  destruct Hfinal as (p' & Hp' & Hfull).
  destruct (respond_frame req
              (mkWorld (withPage (set_fullTitle (composedTitle req (ctx w) p)) c)
                 (lastModified p (htmlCacheControl (res w))) (trace w ++ evs)
                 (S (S (polls w)))))
    as [->|(payload & _ & ->)]; eexists _, _, p'; cbn [ctx]; eauto.
Qed.

(** X1. When the renderer fails, the run fails with the renderer's
    failure.  The headers are set and the language variants assigned by
    then; nothing else has happened: no rendered page, mini-toc or title is
    attached, no body is written, the extractor is not called and the
    monitor is not consulted a second time. *)
Theorem renderer_failure_propagates req w p e :
  page (ctx w) = Some p ->
  method req <> "HEAD" ->
  isConnectionDropped (polls w) = false ->
  render (withLanguageVariants req (ctx w)) = Thrown e ->
  exists w' p',
    renderPage req w = (Thrown e, w') /\
    res w' = lastModified p (htmlCacheControl (res w)) /\
    body (res w') = body (res w) /\
    trace w' = trace w ++ [PageRenderTimed ["path:" +:+ logicalPath req]] /\
    renderedPage (ctx w') = renderedPage (ctx w) /\
    miniTocItems (ctx w') = miniTocItems (ctx w) /\
    page (ctx w') = Some p' /\
    languageVariants p' = Some (getLanguageVariants (logicalPath req)) /\
    fullTitle p' = fullTitle p /\
    polls w' = S (polls w).
Proof.
  intros Hpage Hm Hd Hrender.
  destruct (renderPage_stages req w p Hpage (method_not_HEAD req Hm)) as [_ Hlive].
  destruct (Hlive Hd) as [Hthrow _]. rewrite (Hthrow e Hrender).
  eexists _, _. split; [reflexivity|]. cbn [ctx res trace polls].
  split; [reflexivity|]. split; [rewrite lastModified_body; reflexivity|].
  split; [reflexivity|]. split; [reflexivity|]. split; [reflexivity|].
  split; [unfold withLanguageVariants, withPage; cbn [page]; rewrite Hpage; reflexivity|].
  repeat split.
Qed.

(** X2. When the mini-toc extractor fails, the run fails with its
    failure.  The rendered page (with its fragment) is attached to the
    context by then; the mini-toc and the title are not, no body is
    written and the monitor is not consulted a second time. *)
Theorem extractor_failure_propagates req w p base e :
  page (ctx w) = Some p ->
  method req <> "HEAD" ->
  isConnectionDropped (polls w) = false ->
  render (withLanguageVariants req (ctx w)) = Returned base ->
  showMiniToc p = true ->
  let html := withFragment (logicalPath req) (graphql (ctx w)) base in
  getMiniTocItems (Some html) (miniTocMaxHeadingLevel p) "" = Thrown e ->
  exists w' p',
    renderPage req w = (Thrown e, w') /\
    renderedPage (ctx w') = Some html /\
    miniTocItems (ctx w') = miniTocItems (ctx w) /\
    page (ctx w') = Some p' /\ fullTitle p' = fullTitle p /\
    body (res w') = body (res w) /\
    trace w' = trace w ++ [PageRenderTimed ["path:" +:+ logicalPath req];
                           GetMiniTocItems (Some html) (miniTocMaxHeadingLevel p) ""] /\
    polls w' = S (polls w).
Proof.
  intros Hpage Hm Hd Hrender Hshow html Hitems.
  destruct (renderPage_stages req w p Hpage (method_not_HEAD req Hm)) as [_ Hlive].
  destruct (Hlive Hd) as [_ Hbase]. destruct (Hbase base Hrender) as [Hthrow _].
  rewrite (Hthrow e).
  2:{ unfold miniTocOutcome. rewrite Hshow. fold html. rewrite Hitems. reflexivity. }
  eexists _, _. split; [reflexivity|]. cbn [ctx res trace polls].
  split; [reflexivity|]. split; [reflexivity|].
  split; [unfold set_renderedPage, withLanguageVariants, withPage; cbn [page];
          rewrite Hpage; reflexivity|].
  split; [reflexivity|]. split; [rewrite lastModified_body; reflexivity|].
  split; [|reflexivity]. unfold miniTocCall. rewrite Hshow. reflexivity.
Qed.

(** X3. A run that passes both checkpoints and composes the title (it
    fails there when the current version names a property that the catalog
    only inherits) calls the renderer, then the extractor (when the page
    asks for a mini-toc) on the rendered page with its fragment, and ends
    with a terminal action, which is the hand-over to the next application
    or the debugging answer.  The context then
    holds the rendered page with its fragment, the mini-toc (or nothing),
    and the language variants; the monitor has been consulted twice. *)
Theorem full_run_effects req w p base items :
  page (ctx w) = Some p ->
  method req <> "HEAD" ->
  isConnectionDropped (polls w) = false ->
  isConnectionDropped (S (polls w)) = false ->
  render (withLanguageVariants req (ctx w)) = Returned base ->
  let html := withFragment (logicalPath req) (graphql (ctx w)) base in
  miniTocOutcome p (Some html) = Returned items ->
  titleThrows req (ctx w) = false ->
  exists action w' p',
    renderPage req w = (Returned (Some action), w') /\
    (action = Delegate \/ exists payload, action = RespondJson payload) /\
    renderedPage (ctx w') = Some html /\
    miniTocItems (ctx w') = items /\
    page (ctx w') = Some p' /\
    languageVariants p' = Some (getLanguageVariants (logicalPath req)) /\
    trace w' = trace w ++ PageRenderTimed ["path:" +:+ logicalPath req]
                 :: miniTocCall p (Some html)
                 ++ match action with Delegate => [NextHandleRequest] | _ => [] end /\
    polls w' = S (S (polls w)).
Proof.
  intros Hpage Hm Hd1 Hd2 Hrender html Hitems Htitle.
  destruct (renderPage_stages req w p Hpage (method_not_HEAD req Hm)) as [_ Hlive].
  destruct (Hlive Hd1) as [_ Hbase]. destruct (Hbase base Hrender) as [_ Hok].
  destruct (Hok items Hitems) as [_ Hanswer]. destruct (Hanswer Hd2) as [Hgo _].
  rewrite (Hgo Htitle).
  assert (Hp' : exists p',
            page (withPage (set_fullTitle (composedTitle req (ctx w) p))
                    (set_miniTocItems items
                       (set_renderedPage html (withLanguageVariants req (ctx w)))))
            = Some p' /\
            languageVariants p' = Some (getLanguageVariants (logicalPath req))).
  { unfold withPage, set_miniTocItems, set_renderedPage, withLanguageVariants, withPage.
    cbn [page]. rewrite Hpage. eexists. split; reflexivity. }
  destruct Hp' as (p' & Hp' & Hlv).
  match goal with |- context [respond req ?W] =>
    destruct (respond_frame req W) as [->|(payload & _ & ->)] end.
  - exists Delegate. eexists _, p'. split; [reflexivity|]. cbn [ctx res trace polls].
    split; [left; reflexivity|]. split; [reflexivity|]. split; [reflexivity|].
    split; [exact Hp'|]. split; [exact Hlv|]. split; [|reflexivity].
    rewrite <- app_assoc. reflexivity.
  - exists (RespondJson payload). eexists _, p'. split; [reflexivity|].
    cbn [ctx res trace polls].
    split; [right; eauto|]. split; [reflexivity|]. split; [reflexivity|].
    split; [exact Hp'|]. split; [exact Hlv|]. split; [|reflexivity].
    rewrite app_nil_r. reflexivity.
Qed.

(** X4. On the homepage path the title of a run that passes both
    checkpoints is the plain title, with no suffix, whatever the version. *)
Theorem homepage_title_is_plain req w p :
  page (ctx w) = Some p ->
  method req <> "HEAD" ->
  UpstreamAnswers req w ->
  isConnectionDropped (polls w) = false ->
  isConnectionDropped (S (polls w)) = false ->
  homepagePath_test (logicalPath req) = true ->
  exists action w' p',
    renderPage req w = (Returned (Some action), w') /\
    page (ctx w') = Some p' /\
    fullTitle p' = Some (titlePlainText p).
Proof.
  intros Hpage Hm Hup Hd1 Hd2 Hhome.
  assert (Htitled : titleThrows req (ctx w) = false).
  { unfold titleThrows. rewrite Hhome. reflexivity. }
  destruct (renderPage_titled req w p Hpage Hm Hup Hd1 Hd2 Htitled)
    as (action & w' & p' & Hrun & Hp' & Htitle).
  exists action, w', p'. split; [exact Hrun|]. split; [exact Hp'|].
  rewrite Htitle. unfold composedTitle. rewrite Hhome. reflexivity.
Qed.

(** X5. Off the homepage, when the current version is
    free-pro-team@latest (listed in the catalog or not), or when
    [allVersions[v]] is undefined for it (the catalog neither owns nor
    inherits a property of that name), the title of a run that passes both
    checkpoints is the plain title, " - " and the site's header text. *)
Theorem default_or_unlisted_version_title req w p :
  page (ctx w) = Some p ->
  method req <> "HEAD" ->
  UpstreamAnswers req w ->
  isConnectionDropped (polls w) = false ->
  isConnectionDropped (S (polls w)) = false ->
  homepagePath_test (logicalPath req) = false ->
  currentVersion (ctx w) = "free-pro-team@latest" \/
  lookupVersion (currentVersion (ctx w)) = NoProperty ->
  exists action w' p',
    renderPage req w = (Returned (Some action), w') /\
    page (ctx w') = Some p' /\
    fullTitle p' = Some (titlePlainText p +:+ " - " +:+ github_docs (ctx w)).
Proof.
  intros Hpage Hm Hup Hd1 Hd2 Hhome Hversion.
  assert (Htitled : titleThrows req (ctx w) = false).
  { unfold titleThrows. destruct Hversion as [-> | ->]; [|apply andb_false_r].
    rewrite andb_false_r. reflexivity. }
  destruct (renderPage_titled req w p Hpage Hm Hup Hd1 Hd2 Htitled)
    as (action & w' & p' & Hrun & Hp' & Htitle).
  exists action, w', p'. split; [exact Hrun|]. split; [exact Hp'|].
  rewrite Htitle. unfold composedTitle. rewrite Hhome.
  destruct Hversion as [-> | Hnone]; [reflexivity|].
  destruct (String.eqb _ _); [reflexivity|].
  unfold lookupVersion in Hnone.
  destruct (allVersions !! currentVersion (ctx w)); [discriminate|reflexivity].
Qed.


(** X9. The Last-Modified header after a run, whatever its outcome: for
    a present page, a method other than HEAD and a non-empty effective
    date, the UTC string of that date; in every other case (no page, HEAD,
    no effective date or an empty one) what it was before the run. *)
Theorem last_modified_header req w :
  headers (res (snd (renderPage req w))) !! "Last-Modified" =
    match page (ctx w) with
    | Some p =>
        if String.eqb (method req) "HEAD" then headers (res w) !! "Last-Modified"
        else match truthy (effectiveDate p) with
             | Some d => Some (TextValue (toUTCString d))
             | None => headers (res w) !! "Last-Modified"
             end
    | None => headers (res w) !! "Last-Modified"
    end.
Proof.
  assert (Hcc : forall r, headers (cacheControlFactory 0 r) !! "Last-Modified"
                          = headers r !! "Last-Modified").
  { intros r. unfold cacheControlFactory, setHeader. cbn [headers].
    apply lookup_insert_ne. discriminate. }
  destruct (page (ctx w)) as [p|] eqn:Hpage.
  2:{ rewrite (renderPage_missing req w Hpage). cbn [snd res]. apply Hcc. }
  destruct (String.eqb (method req) "HEAD") eqn:Hm.
  { apply String.eqb_eq in Hm. rewrite (renderPage_HEAD req w p Hpage Hm).
    cbn [snd res send status headers]. apply Hcc. }
  assert (Hr1 : headers (lastModified p (htmlCacheControl (res w))) !! "Last-Modified" =
                match truthy (effectiveDate p) with
                | Some d => Some (TextValue (toUTCString d))
                | None => headers (res w) !! "Last-Modified"
                end).
  { unfold lastModified. destruct (truthy (effectiveDate p)); [|apply Hcc].
    unfold setHeader. cbn [headers]. apply lookup_insert_eq. }
  destruct (renderPage_pipeline req w p Hpage Hm)
    as (out & -> & [[_ ->]|(_ & c & evs & _ & _ & _ & _ & Hout)]); [exact Hr1|].
  destruct Hout as [(_ & e & n & ->)|[[_ ->]|[(_ & _ & ->)|(_ & _ & ->)]]];
    try exact Hr1.
  match goal with |- context [respond req ?W] =>
    destruct (respond_frame req W) as [->|(payload & _ & ->)] end; exact Hr1.
Qed.

(** X10. Every run leaves the no-cache directive on the response: also
    the runs that stop at a checkpoint and the runs that fail. *)
Theorem every_run_sets_no_cache req w :
  headers (res (snd (renderPage req w))) !! "Cache-Control"
  = Some (CacheControlValue NoCache).
Proof.
  destruct (page (ctx w)) as [p|] eqn:Hpage.
  2:{ rewrite (renderPage_missing req w Hpage). apply cacheControl_no_cache. }
  destruct (String.eqb (method req) "HEAD") eqn:Hm.
  { apply String.eqb_eq in Hm. rewrite (renderPage_HEAD req w p Hpage Hm).
    apply cacheControl_no_cache. }
  assert (Hr1 : headers (lastModified p (htmlCacheControl (res w))) !! "Cache-Control"
                = Some (CacheControlValue NoCache)).
  { rewrite lastModified_cacheControl. apply cacheControl_no_cache. }
  destruct (renderPage_pipeline req w p Hpage Hm)
    as (out & -> & [[_ ->]|(_ & c & evs & _ & _ & _ & _ & Hout)]); [exact Hr1|].
  destruct Hout as [(_ & e & n & ->)|[[_ ->]|[(_ & _ & ->)|(_ & _ & ->)]]];
    try exact Hr1.
  match goal with |- context [respond req ?W] =>
    destruct (respond_frame req W) as [->|(payload & _ & ->)] end; exact Hr1.
Qed.

(** X11. No run, whatever its outcome, changes what the middleware
    reads from the context: the presence of the page, its plain title,
    effective date, mini-toc flag and heading level, the redirect hint, the
    current version, the prerendered fragments and the site's header
    text.  What a run writes is [page.languageVariants], [page.fullTitle],
    [context.renderedPage] and [context.miniTocItems]. *)
Theorem context_inputs_preserved req w :
  contextInputs (ctx (snd (renderPage req w))) = contextInputs (ctx w).
Proof.
  destruct (page (ctx w)) as [p|] eqn:Hpage.
  2:{ rewrite (renderPage_missing req w Hpage). reflexivity. }
  destruct (String.eqb (method req) "HEAD") eqn:Hm.
  { apply String.eqb_eq in Hm. rewrite (renderPage_HEAD req w p Hpage Hm). reflexivity. }
  assert (Hc1 : contextInputs (withLanguageVariants req (ctx w)) = contextInputs (ctx w)).
  { apply contextInputs_withPage. reflexivity. }
  destruct (renderPage_stages req w p Hpage Hm) as [Hdrop Hlive].
  destruct (isConnectionDropped (polls w)) eqn:Hd0.
  { rewrite (Hdrop eq_refl). exact Hc1. }
  destruct (Hlive eq_refl) as [Hthrow Hbase].
  destruct (render (withLanguageVariants req (ctx w))) as [base|e] eqn:Hrender.
  2:{ rewrite (Hthrow e eq_refl). exact Hc1. }
  destruct (Hbase base eq_refl) as [Hmthrow Hmok].
  destruct (miniTocOutcome p
              (Some (withFragment (logicalPath req) (graphql (ctx w)) base)))
    as [items|e] eqn:Hitems.
  2:{ rewrite (Hmthrow e eq_refl). exact Hc1. }
  destruct (Hmok items eq_refl) as [Hstop Hanswer].
  destruct (isConnectionDropped (S (polls w))) eqn:Hd1.
  { rewrite (Hstop eq_refl). exact Hc1. }
  destruct (Hanswer eq_refl) as [Hgo Hfail].
  destruct (titleThrows req (ctx w)) eqn:Htitle.
  { rewrite (Hfail eq_refl). cbn [snd ctx].
    rewrite contextInputs_withPage by reflexivity. exact Hc1. }
  rewrite (Hgo eq_refl).
  match goal with |- context [respond req ?W] =>
    destruct (respond_frame req W) as [->|(payload & _ & ->)] end;
    cbn [snd ctx]; (rewrite contextInputs_withPage by reflexivity); exact Hc1.
Qed.

(** X13. The mini-toc step, for a present page.  When the page does not
    ask for a mini-toc, it returns nothing and leaves the world as it
    is: the extractor is not called.  When it does, the extractor is called
    once, on [context.renderedPage], the heading level of the page and an
    empty id prefix, and its answer or its failure is the result; the
    context and the response are left as they are. *)
Theorem miniToc_only_when_flagged req w p :
  page (ctx w) = Some p ->
  (showMiniToc p = false -> buildMiniTocItems req w = (Returned None, w)) /\
  (showMiniToc p = true ->
   let call := GetMiniTocItems (renderedPage (ctx w)) (miniTocMaxHeadingLevel p) "" in
   let w' := mkWorld (ctx w) (res w) (trace w ++ [call]) (polls w) in
   (forall items,
      getMiniTocItems (renderedPage (ctx w)) (miniTocMaxHeadingLevel p) "" = Returned items ->
      buildMiniTocItems req w = (Returned (Some items), w')) /\
   (forall e,
      getMiniTocItems (renderedPage (ctx w)) (miniTocMaxHeadingLevel p) "" = Thrown e ->
      buildMiniTocItems req w = (Thrown e, w'))).
Proof.
  intros Hpage. rewrite (buildMiniTocItems_run req w p Hpage).
  unfold miniTocOutcome, miniTocCall. split; intros ->.
  - rewrite app_nil_r. destruct w; reflexivity.
  - split; intros ? ->; reflexivity.
Qed.

(** X14. Without a page the two helper steps raise a TypeError at once:
    the renderer and the extractor are not called and the world is left as
    it is. *)
Theorem helpers_need_a_page req w :
  page (ctx w) = None ->
  buildRenderedPage req w = (Thrown TypeError, w) /\
  buildMiniTocItems req w = (Thrown TypeError, w).
Proof.
  intros Hpage. unfold buildRenderedPage, buildMiniTocItems. run.
  rewrite Hpage. split; reflexivity.
Qed.

(** X15. Off the homepage, when the current version is not
    free-pro-team@latest and names a property that the catalog does not
    own and inherits (constructor, toString, ...), a run that passes both
    checkpoints fails with a TypeError in the title: [allVersions[v]] is
    truthy, its [versionTitle] is undefined, and [versionTitle.includes]
    raises.  [page.fullTitle] is left as the plain title and " - "; no
    body is written and no handler of the next application is called. *)
Theorem inherited_version_name_fails req w p :
  page (ctx w) = Some p ->
  method req <> "HEAD" ->
  UpstreamAnswers req w ->
  isConnectionDropped (polls w) = false ->
  isConnectionDropped (S (polls w)) = false ->
  homepagePath_test (logicalPath req) = false ->
  currentVersion (ctx w) <> "free-pro-team@latest" ->
  allVersions !! currentVersion (ctx w) = None ->
  inheritedKey (currentVersion (ctx w)) = true ->
  exists w' p' evs,
    renderPage req w = (Thrown TypeError, w') /\
    page (ctx w') = Some p' /\
    fullTitle p' = Some (titlePlainText p +:+ " - ") /\
    body (res w') = body (res w) /\
    trace w' = trace w ++ evs /\ Forall (fun e => isHandOver e = false) evs.
Proof.
  intros Hpage Hm Hup Hd1 Hd2 Hhome Hversion Hown Hinherited.
  assert (Htitle : titleThrows req (ctx w) = true).
  { unfold titleThrows, lookupVersion. rewrite Hhome, Hown, Hinherited.
    apply String.eqb_neq in Hversion. rewrite Hversion. reflexivity. }
  destruct (renderPage_pipeline req w p Hpage (method_not_HEAD req Hm))
    as (out & -> & [[Hd ->]|(_ & c & evs & Hc & Hevs & _ & _ & Hout)]); [congruence|].
  destruct Hout as [[Hnup _]|[[Hd _]|[(_ & Hno & _)|(_ & _ & ->)]]];
    [contradiction|congruence|congruence|].
  eexists _, _, evs. split; [reflexivity|]. cbn [ctx res trace].
  split; [unfold withPage; cbn [page]; rewrite Hc; reflexivity|].
  split; [reflexivity|]. split; [rewrite lastModified_body; reflexivity|].
  split; [reflexivity|exact Hevs].
Qed.

End Further.

(** ** Witnesses of the further properties *)

Lemma Cases_upstream base items req w :
  @UpstreamAnswers (Cases.collaborators (Returned base) (Returned items)) req w.
Proof. split; intros; eexists; reflexivity. Qed.

Lemma renderer_failure_propagates_witness :
  let E := Cases.collaborators (Thrown Cases.renderFailed) (Returned (JArr [])) in
  let req := Sample.request "GET" "/en/foo" ∅ in
  let w := Sample.world Sample.context in
  exists w' p',
    renderPage req w = (Thrown Cases.renderFailed, w') /\
    res w' = lastModified Sample.article (htmlCacheControl (res w)) /\
    body (res w') = body (res w) /\
    trace w' = trace w ++ [PageRenderTimed ["path:" +:+ logicalPath req]] /\
    renderedPage (ctx w') = renderedPage (ctx w) /\
    miniTocItems (ctx w') = miniTocItems (ctx w) /\
    page (ctx w') = Some p' /\
    languageVariants p' = Some (getLanguageVariants (logicalPath req)) /\
    fullTitle p' = fullTitle Sample.article /\
    polls w' = S (polls w).
Proof.
  intros E req w.
  apply (@renderer_failure_propagates E req w Sample.article Cases.renderFailed).
  - reflexivity.
  - discriminate.
  - reflexivity.
  - reflexivity.
Defined.

Lemma extractor_failure_propagates_witness :
  let E := Cases.collaborators (Returned "<h2>Foo</h2>") (Thrown Cases.miniTocFailed) in
  let req := Sample.request "GET" "/en/graphql/reference/mutations" ∅ in
  let w := Sample.world Sample.context in
  let html := "<h2>Foo</h2><div>mutations</div>" in
  exists w' p',
    renderPage req w = (Thrown Cases.miniTocFailed, w') /\
    renderedPage (ctx w') = Some html /\
    miniTocItems (ctx w') = miniTocItems (ctx w) /\
    page (ctx w') = Some p' /\ fullTitle p' = fullTitle Sample.article /\
    body (res w') = body (res w) /\
    trace w' = trace w ++ [PageRenderTimed ["path:" +:+ logicalPath req];
                           GetMiniTocItems (Some html) 2 ""] /\
    polls w' = S (polls w).
Proof.
  intros E req w html.
  apply (@extractor_failure_propagates E req w Sample.article "<h2>Foo</h2>"
           Cases.miniTocFailed).
  - reflexivity.
  - discriminate.
  - reflexivity.
  - reflexivity.
  - reflexivity.
  - reflexivity.
Defined.

Lemma full_run_effects_witness :
  let E := Sample.collaborators (Some "production") Sample.alive in
  let req := Sample.request "GET" "/en/graphql/reference/objects" ∅ in
  let w := Sample.world Sample.context in
  let html := "<h2>Foo</h2><div>objects</div>" in
  exists action w' p',
    renderPage req w = (Returned (Some action), w') /\
    (action = Delegate \/ exists payload, action = RespondJson payload) /\
    renderedPage (ctx w') = Some html /\
    miniTocItems (ctx w') = Some (JArr [JStr "Foo"]) /\
    page (ctx w') = Some p' /\
    languageVariants p' = Some (getLanguageVariants (logicalPath req)) /\
    trace w' = trace w ++ PageRenderTimed ["path:" +:+ logicalPath req]
                 :: miniTocCall Sample.article (Some html)
                 ++ match action with Delegate => [NextHandleRequest] | _ => [] end /\
    polls w' = S (S (polls w)).
Proof.
  intros E req w html.
  apply (@full_run_effects E req w Sample.article "<h2>Foo</h2>"
           (Some (JArr [JStr "Foo"]))).
  - reflexivity.
  - discriminate.
  - reflexivity.
  - reflexivity.
  - reflexivity.
  - reflexivity.
  - vm_compute. reflexivity.
Defined.

Lemma homepage_title_is_plain_witness :
  let E := Sample.collaborators (Some "production") Sample.alive in
  let req := Sample.request "GET" "/en" ∅ in
  let w := Sample.world Sample.context in
  exists action w' p',
    renderPage req w = (Returned (Some action), w') /\
    page (ctx w') = Some p' /\
    fullTitle p' = Some "Foo".
Proof.
  intros E req w.
  apply (@homepage_title_is_plain E req w Sample.article).
  - reflexivity.
  - discriminate.
  - apply Sample_upstream.
  - reflexivity.
  - reflexivity.
  - reflexivity.
Defined.

Lemma default_or_unlisted_version_title_witness :
  let E := Sample.collaborators (Some "production") Sample.alive in
  let req := Sample.request "GET" "/en/foo" ∅ in
  (exists action w' p',
     renderPage req (Sample.world Cases.freeContext) = (Returned (Some action), w') /\
     page (ctx w') = Some p' /\
     fullTitle p' = Some ("Foo" +:+ " - " +:+ "GitHub Docs")) /\
  (exists action w' p',
     renderPage req (Sample.world Cases.unlistedContext) = (Returned (Some action), w') /\
     page (ctx w') = Some p' /\
     fullTitle p' = Some ("Foo" +:+ " - " +:+ "GitHub Docs")).
Proof.
  intros E req. split.
  - apply (@default_or_unlisted_version_title E req (Sample.world Cases.freeContext)
             Sample.article).
    + reflexivity.
    + discriminate.
    + apply Sample_upstream.
    + reflexivity.
    + reflexivity.
    + reflexivity.
    + left. reflexivity.
  - apply (@default_or_unlisted_version_title E req (Sample.world Cases.unlistedContext)
             Sample.article).
    + reflexivity.
    + discriminate.
    + apply Sample_upstream.
    + reflexivity.
    + reflexivity.
    + reflexivity.
    + right. vm_compute. reflexivity.
Defined.

Lemma miniToc_only_when_flagged_witness :
  let E := Sample.collaborators (Some "production") Sample.alive in
  let req := Sample.request "GET" "/en/foo" ∅ in
  let w := Sample.world Sample.context in
  buildMiniTocItems req w =
    (Returned (Some (JArr [JStr "Foo"])),
     mkWorld (ctx w) (res w) (trace w ++ [GetMiniTocItems None 2 ""]) (polls w)).
Proof.
  intros E req w.
  apply (proj2 (@miniToc_only_when_flagged E req w Sample.article eq_refl) eq_refl).
  reflexivity.
Defined.

Lemma helpers_need_a_page_witness :
  let E := Sample.collaborators (Some "production") Sample.alive in
  let req := Sample.request "GET" "/en/missing" ∅ in
  let w := Sample.world Sample.lostContext in
  buildRenderedPage req w = (Thrown TypeError, w) /\
  buildMiniTocItems req w = (Thrown TypeError, w).
Proof.
  intros E req w. apply (@helpers_need_a_page E req w). reflexivity.
Defined.

Lemma inherited_version_name_fails_witness :
  let E := Sample.collaborators (Some "production") Sample.alive in
  let req := Sample.request "GET" "/en/constructor/foo" ∅ in
  let w := Sample.world Cases.inheritedContext in
  exists w' p' evs,
    renderPage req w = (Thrown TypeError, w') /\
    page (ctx w') = Some p' /\
    fullTitle p' = Some ("Foo" +:+ " - ") /\
    body (res w') = body (res w) /\
    trace w' = trace w ++ evs /\ Forall (fun e => isHandOver e = false) evs.
Proof.
  intros E req w.
  apply (@inherited_version_name_fails E req w Sample.article).
  - reflexivity.
  - discriminate.
  - apply Sample_upstream.
  - reflexivity.
  - reflexivity.
  - reflexivity.
  - discriminate.
  - vm_compute. reflexivity.
  - vm_compute. reflexivity.
Defined.
